(** * Verification of the retail analytics dashboard (streamlit_app.py)

    The development follows the layers of the script:
    - [Text]: the SQL texts the script builds ([sql_quote], [where_sql] and
      the six statements handed to [q]);
    - [QueryCache]: the cached query helper [q] over the external gateway;
    - [Catalog]: what the six statements compute on a table state, and the
      KPI post-processing done in Python;
    - [Packs]: the insight-pack loader [load_pack] and its viewer loop. *)

From Stdlib Require Import ZArith QArith Qround Lia Lqa Bool.
From Stdlib Require Import Ascii Numbers.DecimalString.
From stdpp Require Import base option list sorting gmap strings.

Open Scope string_scope.
Open Scope list_scope.

(** ** Python strings *)

Module Py.

(** [s.replace(old, new)] for a non-empty [old]: occurrences are replaced
    left to right and do not overlap.  [skip] counts the characters of an
    occurrence that was just replaced and still has to be dropped. *)
Fixpoint replace_from (skip : nat) (old new s : string) : string :=
  match s with
  | EmptyString => EmptyString
  | String c t =>
      match skip with
      | S k => replace_from k old new t
      | O =>
          if String.prefix old s
          then new +:+ replace_from (String.length old - 1) old new t
          else String c (replace_from 0 old new t)
      end
  end.

(** With an empty [old] Python inserts [new] before every character and
    at the end. *)
Fixpoint intersperse_all (new s : string) : string :=
  match s with
  | EmptyString => new
  | String c t => new +:+ String c (intersperse_all new t)
  end.

Definition replace (old new s : string) : string :=
  match old with
  | EmptyString => intersperse_all new s
  | _ => replace_from 0 old new s
  end.

(** [sep.join(parts)] *)
Definition join (sep : string) (parts : list string) : string :=
  String.concat sep parts.

(** [str(n)] / [f"{n}"] for an [int] *)
Definition str_int (n : Z) : string :=
  NilEmpty.string_of_int (Z.to_int n).

(** Exceptions (all of them subclasses of [Exception]) and the outcome of
    a call: a value or a raised exception. *)
Inductive exn :=
| RuntimeError (message : string)
| TypeError
| ValueError
| AttributeError
| OSError
| UnicodeDecodeError
| JSONDecodeError.

Inductive outcome (A : Type) :=
| Returns (a : A)
| Raises (e : exn).
Arguments Returns {A} a.
Arguments Raises {A} e.

Definition bind {A B} (m : outcome A) (k : A -> outcome B) : outcome B :=
  match m with
  | Returns a => k a
  | Raises e => Raises e
  end.

(** [try: body except Exception: handler] *)
Definition try_except {A} (body : outcome A) (handler : exn -> outcome A)
  : outcome A :=
  match body with
  | Returns a => Returns a
  | Raises e => handler e
  end.

End Py.

#[global] Instance outcome_bind : MBind Py.outcome :=
  fun A B k m => Py.bind m k.
#[global] Instance outcome_ret : MRet Py.outcome :=
  fun A a => Py.Returns a.

(** ** The SQL texts *)

Module Text.

Definition SCHEMA_TABLE : string := "trent.products".

Definition quote : ascii := "'"%char.

(** [sql_quote]: wrap in single quotes and escape internal single quotes
    by doubling. *)
Definition sql_quote (val : string) : string :=
  "'" +:+ Py.replace "'" "''" val +:+ "'".

(** The same escaping, said in the words of the specification: every
    embedded quote character doubled.  Compared with [Py.replace] in
    [replace_quote_doubles]. *)
Fixpoint double_quotes (s : string) : string :=
  match s with
  | EmptyString => EmptyString
  | String c t =>
      if Ascii.eqb c quote
      then String quote (String quote (double_quotes t))
      else String c (double_quotes t)
  end.

(** The string-literal rule of the query language: a literal opens with a
    quote; inside it two adjacent quotes stand for one quote character and
    a lone quote closes the literal.  [literal_body] reads the part after
    the opening quote and returns the value and the text left after the
    closing quote. *)
Fixpoint literal_body (s : string) : option (string * string) :=
  match s with
  | EmptyString => None
  | String c t =>
      if Ascii.eqb c quote then
        match t with
        | String c' t' =>
            if Ascii.eqb c' quote
            then
              match literal_body t' with
              | Some (v, rest) => Some (String quote v, rest)
              | None => None
              end
            else Some (EmptyString, t)
        | EmptyString => Some (EmptyString, EmptyString)
        end
      else
        match literal_body t with
        | Some (v, rest) => Some (String c v, rest)
        | None => None
        end
  end.

(** A whole text read as one literal. *)
Definition parse_literal (s : string) : option string :=
  match s with
  | String c t =>
      if Ascii.eqb c quote then
        match literal_body t with
        | Some (v, EmptyString) => Some v
        | _ => None
        end
      else None
  | EmptyString => None
  end.

(** The slider for the minimum rating runs over 0.0 .. 5.0 in steps of
    0.1; the model keeps the threshold in tenths, and [f"{min_rating}"]
    prints the shortest decimal of such a value: integer part, a point
    and one digit. *)
Definition str_tenths (t : Z) : string :=
  Py.str_int (t / 10) +:+ "." +:+ Py.str_int (t mod 10).

(** One entry of [where_clauses]. *)
Inductive clause :=
| CTrue
| CBrandIn (brand_sel : list string)
| CDiscGe (min_disc : Z)
| CRatingGe (min_rating : Z).

Definition where_clauses (brand_sel : list string) (min_disc min_rating : Z)
  : list clause :=
  [CTrue]
  ++ (match brand_sel with [] => [] | _ => [CBrandIn brand_sel] end)
  ++ (if (0 <? min_disc)%Z then [CDiscGe min_disc] else [])
  ++ (if (0 <? min_rating)%Z then [CRatingGe min_rating] else []).

Definition clause_sql (c : clause) : string :=
  match c with
  | CTrue => "1=1"
  | CBrandIn brand_sel =>
      "brand IN (" +:+ Py.join "," (map sql_quote brand_sel) +:+ ")"
  | CDiscGe min_disc => "discount_percent >= " +:+ Py.str_int min_disc
  | CRatingGe min_rating => "rating >= " +:+ str_tenths min_rating
  end.

Definition where_sql (brand_sel : list string) (min_disc min_rating : Z)
  : string :=
  Py.join " AND " (map clause_sql (where_clauses brand_sel min_disc min_rating)).

(** The six statements handed to [q], in script order. *)

Definition brands_sql : string :=
  "SELECT DISTINCT brand FROM " +:+ SCHEMA_TABLE +:+ " ORDER BY 1".

Definition kpis_sql (where_sql : string) : string :=
  "
    SELECT
      COUNT(*) AS products,
      ROUND(AVG(price),2) AS avg_price,
      ROUND(AVG(mrp),2) AS avg_mrp,
      ROUND(AVG(discount_percent),2) AS avg_discount_pct,
      SUM(CASE WHEN price = mrp THEN 1 ELSE 0 END) AS no_discount_items
    FROM " +:+ SCHEMA_TABLE +:+ "
    WHERE " +:+ where_sql +:+ "
".

Definition bands_sql (where_sql : string) : string :=
  "
    SELECT band, COUNT(*) AS items
    FROM (
      SELECT CASE
        WHEN discount_percent = 0 THEN '0%'
        WHEN discount_percent < 20 THEN '0-20%'
        WHEN discount_percent < 40 THEN '20-40%'
        WHEN discount_percent < 60 THEN '40-60%'
        ELSE '60%+'
      END AS band
      FROM " +:+ SCHEMA_TABLE +:+ "
      WHERE " +:+ where_sql +:+ "
    ) b
    GROUP BY band
    ORDER BY items DESC
".

Definition price_buckets_sql (where_sql : string) : string :=
  "
    SELECT CASE
      WHEN price < 500 THEN '<500'
      WHEN price < 1000 THEN '500-999'
      WHEN price < 2000 THEN '1000-1999'
      WHEN price < 5000 THEN '2000-4999'
      ELSE '5000+'
    END AS price_bucket,
    COUNT(*) AS items,
    ROUND(AVG(discount_percent),2) AS avg_discount_pct
    FROM " +:+ SCHEMA_TABLE +:+ "
    WHERE " +:+ where_sql +:+ "
    GROUP BY price_bucket
    ORDER BY items DESC
".

Definition top_discounted_sql (where_sql : string) : string :=
  "
    SELECT product_id, title, brand, price, mrp, discount_percent, rating, rating_total
    FROM " +:+ SCHEMA_TABLE +:+ "
    WHERE " +:+ where_sql +:+ "
    ORDER BY discount_percent DESC, price ASC
    LIMIT 50
".

Definition top_rated_sql (where_sql : string) : string :=
  "
    SELECT product_id, title, brand, rating, rating_total, price, mrp, discount_percent
    FROM " +:+ SCHEMA_TABLE +:+ "
    WHERE " +:+ where_sql +:+ " AND rating_total >= 100 AND rating >= 4
    ORDER BY rating DESC, rating_total DESC
    LIMIT 50
".

Definition issued_queries (brand_sel : list string) (min_disc min_rating : Z)
  : list string :=
  let w := where_sql brand_sel min_disc min_rating in
  [ brands_sql; kpis_sql w; bands_sql w; price_buckets_sql w;
    top_discounted_sql w; top_rated_sql w ].

(** *** Reading a statement the way the gateway's language does *)

(** Whether the reader is inside a string literal after [s], starting
    inside ([true]) or outside ([false]).  A doubled quote closes and
    reopens the literal, which leaves the state where it was. *)
Fixpoint lit_state (in_lit : bool) (s : string) : bool :=
  match s with
  | EmptyString => in_lit
  | String c t => lit_state (if Ascii.eqb c quote then negb in_lit else in_lit) t
  end.

(** The statement with its string literals taken out, quotes included:
    what is left is the text the language reads as code. *)
Fixpoint code_part (in_lit : bool) (s : string) : string :=
  match s with
  | EmptyString => EmptyString
  | String c t =>
      if Ascii.eqb c quote then code_part (negb in_lit) t
      else if in_lit then code_part in_lit t
      else String c (code_part in_lit t)
  end.

Definition is_space (c : ascii) : bool :=
  Ascii.eqb c " " || Ascii.eqb c "010" || Ascii.eqb c "009" || Ascii.eqb c "013".

Fixpoint skip_spaces (s : string) : string :=
  match s with
  | EmptyString => EmptyString
  | String c t => if is_space c then skip_spaces t else s
  end.

Definition is_letter (c : ascii) : bool :=
  let n := N_of_ascii c in
  ((65 <=? n) && (n <=? 90) || (97 <=? n) && (n <=? 122))%N.

Definition upper (c : ascii) : ascii :=
  let n := N_of_ascii c in
  if ((97 <=? n) && (n <=? 122))%N then ascii_of_N (n - 32) else c.

Fixpoint leading_word (s : string) : string :=
  match s with
  | EmptyString => EmptyString
  | String c t => if is_letter c then String (upper c) (leading_word t) else EmptyString
  end.

(** The keyword a statement opens with, in upper case. *)
Definition first_keyword (s : string) : string :=
  leading_word (skip_spaces s).

Fixpoint has_char (a : ascii) (s : string) : bool :=
  match s with
  | EmptyString => false
  | String c t => Ascii.eqb c a || has_char a t
  end.

(** One statement, and that a SELECT: the text opens with the keyword
    SELECT, every literal is closed, and no statement separator stands
    outside a literal. *)
Definition single_select (sql : string) : bool :=
  String.eqb (first_keyword sql) "SELECT"
  && negb (lit_state false sql)
  && negb (has_char ";" (code_part false sql)).

(** Two texts read alike: read from outside a literal, both end outside
    a literal, leave the same code once literals are taken out, and that
    code holds no statement separator. *)
Definition tame (x y : string) : Prop :=
  lit_state false x = false
  /\ lit_state false y = false
  /\ code_part false x = code_part false y
  /\ has_char ";" (code_part false x) = false.

(** A selection with the content of every brand string blanked out. *)
Definition blank (brand_sel : list string) : list string :=
  map (fun _ => EmptyString) brand_sel.

End Text.

(** ** The cached query helper *)

Module QueryCache.
Import Py.

(** A cell of a result row, and a result row as the gateway returns it: a
    mapping from column name to value, in column order. *)
Inductive value :=
| VNull
| VInt (n : Z)
| VNum (x : Q)
| VStr (s : string).

Definition row : Type := list (string * value).

(** [pd.DataFrame(rows)]: the rows of the frame. *)
Definition DataFrame : Type := list row.

(** What [run_select_query] hands back: the rows, nothing, or the
    structured error [{"status": "error", "message": ...}]. *)
Inductive gateway_result :=
| GwRows (rows : list row)
| GwNone
| GwError (message : string).

(** The gateway is outside the program: its answer may depend on the
    statement and on how many statements it has executed before. *)
Definition gateway : Type := string -> nat -> gateway_result.

(** The undecorated body of [q]. *)
Definition q_body (res : gateway_result) : outcome DataFrame :=
  match res with
  | GwError message => Raises (RuntimeError message)
  | GwRows rows => Returns rows
  | GwNone => Returns []
  end.

(** [@st.cache_data(ttl=300)]: entries are keyed by the statement text and
    carry the time they were stored at. *)
Definition TTL : Z := 300.

Record entry := { value_of : DataFrame; stored_at : Z }.

Record state := {
  cache : gmap string entry;
  gateway_calls : list string
}.

Definition empty_state : state := {| cache := ∅; gateway_calls := [] |}.

(** An entry is served while the clock is before its expiry time. *)
Definition fresh (now : Z) (e : entry) : bool := (now <? stored_at e + TTL)%Z.

Definition cached (now : Z) (sql : string) (st : state) : option DataFrame :=
  match cache st !! sql with
  | Some e => if fresh now e then Some (value_of e) else None
  | None => None
  end.

(** [q(sql)] at clock time [now]: a fresh entry is returned as it is;
    otherwise the gateway runs the statement, and the frame is stored only
    when the body returns. *)
Definition q (run_select_query : gateway) (now : Z) (sql : string) (st : state)
  : outcome DataFrame * state :=
  match cached now sql st with
  | Some df => (Returns df, st)
  | None =>
      let res := run_select_query sql (List.length (gateway_calls st)) in
      let calls := gateway_calls st ++ [sql] in
      match q_body res with
      | Returns df =>
          (Returns df,
           {| cache := <[sql := {| value_of := df; stored_at := now |}]> (cache st);
              gateway_calls := calls |})
      | Raises e => (Raises e, {| cache := cache st; gateway_calls := calls |})
      end
  end.

(** A run of calls, each with its clock time; the script makes six of them
    on every pass. *)
Definition run (run_select_query : gateway) (calls : list (Z * string))
  (st : state) : state :=
  fold_left (fun st c => snd (q run_select_query (fst c) (snd c) st)) calls st.

(** How often the gateway has run [sql]. *)
Definition calls_of (sql : string) (st : state) : nat :=
  List.length (List.filter (String.eqb sql) (gateway_calls st)).

End QueryCache.

(** ** What the statements compute on a table state *)

Module Catalog.
Import Py Text.

(** A product row of the catalog table, with a value in every column. *)
Record product := {
  product_id : string;
  title : string;
  brand : string;
  price : Q;
  mrp : Q;
  discount_percent : Q;
  rating : Q;
  rating_total : Z
}.

Definition Qltb (x y : Q) : bool := negb (Qle_bool y x).

(** The meaning of one entry of [where_clauses] on a row. *)
Definition clause_holds (c : clause) (p : product) : bool :=
  match c with
  | CTrue => true
  | CBrandIn brand_sel => existsb (String.eqb (brand p)) brand_sel
  | CDiscGe min_disc => Qle_bool (inject_Z min_disc) (discount_percent p)
  | CRatingGe min_rating => Qle_bool (min_rating # 10) (rating p)
  end.

(** [WHERE {where_sql}]: the clauses joined with AND. *)
Definition where_holds (brand_sel : list string) (min_disc min_rating : Z)
  (p : product) : bool :=
  forallb (fun c => clause_holds c p) (where_clauses brand_sel min_disc min_rating).

Definition matching (brand_sel : list string) (min_disc min_rating : Z)
  (table : list product) : list product :=
  List.filter (where_holds brand_sel min_disc min_rating) table.

(** *** KPIs *)

(** A numeric result cell: SQL NULL arrives in Python as [None]. *)
Inductive cell :=
| Null
| Int (n : Z)
| Num (x : Q).

Record kpi_row := {
  products : cell;
  avg_price : cell;
  avg_mrp : cell;
  avg_discount_pct : cell;
  no_discount_items : cell
}.

(** The aggregates of the statement, as the query language defines them:
    over no rows COUNT is 0 while AVG and SUM are NULL, and ROUND of NULL is
    NULL.  [ROUND2] rounds to two decimals, halves upwards. *)
Definition COUNT {A} (rows : list A) : cell := Int (Z.of_nat (List.length rows)).

Definition Qsum (xs : list Q) : Q := fold_right Qplus 0%Q xs.

Definition AVG (xs : list Q) : option Q :=
  match xs with
  | [] => None
  | _ => Some (Qsum xs / inject_Z (Z.of_nat (List.length xs)))%Q
  end.

Definition ROUND2 (x : option Q) : cell :=
  match x with
  | None => Null
  | Some x => Num (Qfloor (x * 100 + (1 # 2)) # 100)
  end.

Definition SUM (xs : list Z) : cell :=
  match xs with
  | [] => Null
  | _ => Int (fold_right Z.add 0%Z xs)
  end.

(** The KPI statement has aggregates and no GROUP BY: it answers with one
    row, whatever the filter matches. *)
Definition kpis_rows (brand_sel : list string) (min_disc min_rating : Z)
  (table : list product) : list kpi_row :=
  let rows := matching brand_sel min_disc min_rating table in
  [ {| products := COUNT rows;
       avg_price := ROUND2 (AVG (map price rows));
       avg_mrp := ROUND2 (AVG (map mrp rows));
       avg_discount_pct := ROUND2 (AVG (map discount_percent rows));
       no_discount_items :=
         SUM (map (fun p => if Qeq_bool (price p) (mrp p) then 1%Z else 0%Z) rows) |} ].

(** The fallback [pd.Series] of the script. *)
Definition zero_series : kpi_row :=
  {| products := Int 0; avg_price := Int 0; avg_mrp := Int 0;
     avg_discount_pct := Int 0; no_discount_items := Int 0 |}.

(** [kpis = kpis_df.iloc[0] if not kpis_df.empty else pd.Series({...})] *)
Definition kpis (kpis_df : list kpi_row) : kpi_row :=
  match kpis_df with
  | r :: _ => r
  | [] => zero_series
  end.

Definition Qtruncate (x : Q) : Z := Z.quot (Qnum x) (Zpos (Qden x)).

(** Python's [int(x)]: truncation towards zero for a number, [TypeError]
    for [None]. *)
Definition int (c : cell) : outcome Z :=
  match c with
  | Int n => Returns n
  | Num x => Returns (Qtruncate x)
  | Null => Raises TypeError
  end.

Inductive metric := Metric (label : string) (shown : cell).

(** The five [metric] calls, top to bottom. *)
Definition kpi_metrics (k : kpi_row) : outcome (list metric) :=
  n ← int (products k);
  m ← int (no_discount_items k);
  mret [ Metric "Products" (Int n);
         Metric "Avg Price" (avg_price k);
         Metric "Avg MRP" (avg_mrp k);
         Metric "Avg Discount %" (avg_discount_pct k);
         Metric "No-discount Items" (Int m) ].

(** The KPI section of the script on a table state. *)
Definition kpi_section (brand_sel : list string) (min_disc min_rating : Z)
  (table : list product) : outcome (list metric) :=
  kpi_metrics (kpis (kpis_rows brand_sel min_disc min_rating table)).

(** *** Bands and buckets *)

(** The CASE expression of the discount-band statement. *)
Definition discount_band (d : Q) : string :=
  if Qeq_bool d 0 then "0%"
  else if Qltb d 20 then "0-20%"
  else if Qltb d 40 then "20-40%"
  else if Qltb d 60 then "40-60%"
  else "60%+".

(** The CASE expression of the price-bucket statement. *)
Definition price_bucket (p : Q) : string :=
  if Qltb p 500 then "<500"
  else if Qltb p 1000 then "500-999"
  else if Qltb p 2000 then "1000-1999"
  else if Qltb p 5000 then "2000-4999"
  else "5000+".

(** *** Ranked tables *)

(** [ORDER BY ... LIMIT 50]: the rows are brought into the order and the
    first 50 are kept.  The language leaves the order of rows that tie on
    every key open; merge sort stands for the gateway's choice. *)
Definition order_by (leb : product -> product -> bool) (rows : list product)
  : list product :=
  merge_sort (fun a b => Is_true (leb a b)) rows.

Definition LIMIT : nat := 50.

(** [ORDER BY discount_percent DESC, price ASC] *)
Definition discount_desc_price_asc (a b : product) : bool :=
  Qltb (discount_percent b) (discount_percent a)
  || (Qeq_bool (discount_percent a) (discount_percent b)
      && Qle_bool (price a) (price b)).

Definition top_discounted (brand_sel : list string) (min_disc min_rating : Z)
  (table : list product) : list product :=
  take LIMIT (order_by discount_desc_price_asc
                (matching brand_sel min_disc min_rating table)).

(** [... AND rating_total >= 100 AND rating >= 4] *)
Definition well_rated (p : product) : bool :=
  (100 <=? rating_total p)%Z && Qle_bool 4 (rating p).

(** [ORDER BY rating DESC, rating_total DESC] *)
Definition rating_desc_total_desc (a b : product) : bool :=
  Qltb (rating b) (rating a)
  || (Qeq_bool (rating a) (rating b) && (rating_total b <=? rating_total a)%Z).

Definition top_rated (brand_sel : list string) (min_disc min_rating : Z)
  (table : list product) : list product :=
  take LIMIT (order_by rating_desc_total_desc
                (List.filter well_rated
                   (matching brand_sel min_disc min_rating table))).

(** The two orders in words: [a] may stand before [b]. *)
Definition by_discount_then_price (a b : product) : Prop :=
  (discount_percent b < discount_percent a)%Q
  \/ ((discount_percent a == discount_percent b)%Q /\ (price a <= price b)%Q).

Definition by_rating_then_total (a b : product) : Prop :=
  (rating b < rating a)%Q
  \/ ((rating a == rating b)%Q /\ (rating_total b <= rating_total a)%Z).

End Catalog.

(** ** Insight packs *)

Module Packs.
Import Py.

#[local] Set Warnings "-register-all".

(** What [json.loads] produces. *)
Inductive json :=
| JNull
| JBool (b : bool)
| JInt (n : Z)
| JFloat (x : Q)
| JStr (s : string)
| JArr (items : list json)
| JObj (fields : list (string * json)).

(** Python truthiness: [not pack] is the negation of this. *)
Definition truthy (v : json) : bool :=
  match v with
  | JNull => false
  | JBool b => b
  | JInt n => negb (n =? 0)%Z
  | JFloat x => negb (Qeq_bool x 0)
  | JStr s => negb (String.eqb s "")
  | JArr items => match items with [] => false | _ => true end
  | JObj fields => match fields with [] => false | _ => true end
  end.

(** The empty structure [{}]. *)
Definition empty_struct : json := JObj [].

(** The world outside the program: reading a file as UTF-8 text, decoding
    JSON text and building a data frame from a decoded value
    ([pd.DataFrame(rows)]), any of which may raise. *)
Record env := {
  read_text : string -> outcome string;
  json_loads : string -> outcome json;
  pd_DataFrame : json -> outcome unit
}.

(** The undecorated body of [load_pack]. *)
Definition load_pack_body (w : env) (path_str : string) : outcome json :=
  try_except
    (text ← read_text w path_str; json_loads w text)
    (fun _ => Returns empty_struct).

(** [@lru_cache(maxsize=256)]: the memo table, most recently used first. *)
Definition maxsize : nat := 256.

Definition memo : Type := list (string * json).

Fixpoint memo_get (path_str : string) (m : memo) : option json :=
  match m with
  | [] => None
  | (k, v) :: m' => if String.eqb k path_str then Some v else memo_get path_str m'
  end.

Definition memo_drop (path_str : string) (m : memo) : memo :=
  List.filter (fun kv => negb (String.eqb (fst kv) path_str)) m.

Definition load_pack (w : env) (path_str : string) (m : memo)
  : outcome json * memo :=
  match memo_get path_str m with
  | Some v => (Returns v, (path_str, v) :: memo_drop path_str m)
  | None =>
      match load_pack_body w path_str with
      | Returns v => (Returns v, take maxsize ((path_str, v) :: m))
      | Raises e => (Raises e, m)
      end
  end.

(** *** The viewer *)

(** What the viewer asks the rendering library to show.  Arguments are
    recorded as the script passes them; laying them out is the library's
    part. *)
Inductive ui :=
| Markdown (text : string)
| Warning (text : string)
| Write (bullet : json)
| Json (kpis : json)
| TableHeading (name : string)
| Dataframe (rows : json).

(** [pack.get(key)]: only a dict has [get]. *)
Fixpoint fields_get (key : string) (fields : list (string * json)) : json :=
  match fields with
  | [] => JNull
  | (k, v) :: rest => if String.eqb k key then v else fields_get key rest
  end.

Definition get (pack : json) (key : string) : outcome json :=
  match pack with
  | JObj fields => Returns (fields_get key fields)
  | _ => Raises AttributeError
  end.

(** [x or default] *)
Definition or_else (x default : json) : json :=
  if truthy x then x else default.

(** [for b in bullets]: the items of a list, the characters of a string,
    the keys of a dict; anything else is not iterable. *)
Definition iterate (v : json) : outcome (list json) :=
  match v with
  | JArr items => Returns items
  | JStr s => Returns (map (fun c => JStr (String c EmptyString)) (String.list_ascii_of_string s))
  | JObj fields => Returns (map (fun kv => JStr (fst kv)) fields)
  | _ => Raises TypeError
  end.

(** [tables.items()] *)
Definition items (v : json) : outcome (list (string * json)) :=
  match v with
  | JObj fields => Returns fields
  | _ => Raises AttributeError
  end.

(** [for name, rows in tables.items()]: the heading of each table and its
    frame; a value the frame constructor refuses ends the loop with the
    constructor's exception. *)
Fixpoint draw_tables (w : env) (named : list (string * json)) : outcome (list ui) :=
  match named with
  | [] => Returns []
  | nr :: rest =>
      match pd_DataFrame w (snd nr) with
      | Raises e => Raises e
      | Returns _ =>
          match draw_tables w rest with
          | Raises e => Raises e
          | Returns later =>
              Returns (TableHeading (fst nr) :: Dataframe (snd nr) :: later)
          end
      end
  end.

(** The body of the viewer loop for one pack, after its heading. *)
Definition show_pack (w : env) (pack : json) : outcome (list ui) :=
  if negb (truthy pack) then Returns [Warning "Could not read this pack."]
  else
    b ← get pack "bullets";
    let bullets := or_else b (JArr []) in
    shown ← (if truthy bullets then iterate bullets else Returns []);
    k ← get pack "kpis";
    let kpis_insight := or_else k (JObj []) in
    t ← get pack "tables";
    let tables := or_else t (JObj []) in
    named ← items tables;
    drawn ← draw_tables w named;
    mret (map Write shown
          ++ (if truthy kpis_insight then [Json kpis_insight] else [])
          ++ drawn).

(** A pack file: its path and its stem (the display label). *)
Record pack_file := { path : string; stem : string }.

(** [cols = st.columns(max(1, min(3, len(files_to_show))))] *)
Definition columns (n : nat) : nat := Nat.max 1 (Nat.min 3 n).

(** What was drawn so far stays in front of what the rest of the loop
    draws; an exception in the rest ends the view. *)
Definition prepend (here : list (nat * ui))
  (later : outcome (list (nat * ui)) * memo) : outcome (list (nat * ui)) * memo :=
  match later with
  | (Returns evs, m) => (Returns (here ++ evs), m)
  | (Raises e, m) => (Raises e, m)
  end.

(** The loop over [files_to_show]: each pack is drawn in column
    [i % len(cols)]; an exception ends the whole view. *)
Fixpoint view_from (w : env) (ncols i : nat) (files : list pack_file) (m : memo)
  : outcome (list (nat * ui)) * memo :=
  match files with
  | [] => (Returns [], m)
  | f :: rest =>
      let col := i mod ncols in
      match load_pack w (path f) m with
      | (Raises e, m') => (Raises e, m')
      | (Returns pack, m') =>
          match show_pack w pack with
          | Raises e => (Raises e, m')
          | Returns shown =>
              prepend ((col, Markdown ("**" +:+ stem f +:+ "**")) :: map (pair col) shown)
                (view_from w ncols (S i) rest m')
          end
      end
  end.

Definition view (w : env) (files_to_show : list pack_file) (m : memo)
  : outcome (list (nat * ui)) * memo :=
  view_from w (columns (List.length files_to_show)) 0 files_to_show m.

(** A file that cannot be read or does not decode. *)
Definition unreadable (w : env) (path_str : string) : bool :=
  match read_text w path_str with
  | Raises _ => true
  | Returns text =>
      match json_loads w text with
      | Raises _ => true
      | Returns _ => false
      end
  end.

End Packs.

(** ** Sample inputs *)

Module Samples.
Import Py QueryCache.

(** A gateway that is down: every statement is answered with the
    structured error. *)
Definition failing_gateway : gateway :=
  fun _ _ => GwError "connection refused".

(** A gateway that answers every statement with one row counting the
    statements it has run before. *)
Definition counting_gateway : gateway :=
  fun _ n => GwRows [[("n", VInt (Z.of_nat n))]].

(** A product row with the given discount and price, the other columns
    taken from [base]. *)
Definition row_with (base : Catalog.product) (discount price : Q)
  : Catalog.product :=
  {| Catalog.product_id := Catalog.product_id base;
     Catalog.title := Catalog.title base;
     Catalog.brand := Catalog.brand base;
     Catalog.price := price;
     Catalog.mrp := Catalog.mrp base;
     Catalog.discount_percent := discount;
     Catalog.rating := Catalog.rating base;
     Catalog.rating_total := Catalog.rating_total base |}.

(** A well-rated product: rating 4.5 from [100 + i] ratings. *)
Definition popular (i : nat) : Catalog.product :=
  {| Catalog.product_id := "sku";
     Catalog.title := "shirt";
     Catalog.brand := "acme";
     Catalog.price := 499;
     Catalog.mrp := 999;
     Catalog.discount_percent := 50;
     Catalog.rating := 4.5;
     Catalog.rating_total := 100 + Z.of_nat i |}.

(** A table of 51 well-rated products. *)
Definition crowd : list Catalog.product := map popular (seq 0 51).

(** The frame constructor as far as the samples use it: it takes an empty
    list of rows and [None]. *)
Definition frame_of_no_rows (rows : Packs.json) : outcome unit :=
  match rows with
  | Packs.JArr [] | Packs.JNull => Returns tt
  | _ => Raises ValueError
  end.

(** A pack directory with one well-formed pack holding [{}] and one
    truncated pack; no other file exists.  The decoder is given on the two
    texts stored there. *)
Definition empty_pack : Packs.pack_file :=
  {| Packs.path := "analytics_out/packs/empty.json"; Packs.stem := "empty" |}.

Definition broken_pack : Packs.pack_file :=
  {| Packs.path := "analytics_out/packs/broken.json"; Packs.stem := "broken" |}.

Definition disk : Packs.env :=
  {| Packs.read_text := fun p =>
       if String.eqb p "analytics_out/packs/empty.json" then Returns "{}"
       else if String.eqb p "analytics_out/packs/broken.json" then Returns "{'bullets': ["
       else Raises OSError;
     Packs.json_loads := fun text =>
       if String.eqb text "{}" then Returns (Packs.JObj [])
       else Raises JSONDecodeError;
     Packs.pd_DataFrame := frame_of_no_rows |}.

End Samples.

(** ** Filter options *)

Module Filters.
Import Py Text Catalog.

(** [SELECT DISTINCT brand FROM ... ORDER BY 1] on a table state: one cell
    per distinct brand.  Merge sort on the byte order stands for the
    gateway's ordering. *)
Definition brands_rows (table : list product) : list (option string) :=
  map Some
    (merge_sort (fun a b => Is_true (String.leb a b))
       (remove_dups (map brand table))).

(** [brands = brands_df["brand"].dropna().tolist() if not brands_df.empty
    else []] *)
Definition brands (brands_df : list (option string)) : list string :=
  match brands_df with
  | [] => []
  | _ => omap id brands_df
  end.


(** The query language reading a comma-separated list of string literals,
    as it stands between the parentheses of [brand IN (...)].  One unit of
    fuel is spent per literal. *)
Fixpoint literal_list (fuel : nat) (s : string) : option (list string) :=
  match fuel with
  | O => None
  | S fuel' =>
      match s with
      | EmptyString => None
      | String c t =>
          if Ascii.eqb c quote then
            match literal_body t with
            | None => None
            | Some (v, EmptyString) => Some [v]
            | Some (v, String c' rest) =>
                if Ascii.eqb c' ","
                then
                  match literal_list fuel' rest with
                  | Some vs => Some (v :: vs)
                  | None => None
                  end
                else None
            end
          else None
      end
  end.

Definition parse_in_list (s : string) : option (list string) :=
  literal_list (String.length s) s.

End Filters.

(** ** Distributions *)

Module Distributions.
Import Py Text Catalog.

(** [GROUP BY]: one group per distinct value of the key among the rows. *)
Definition group_by (key : product -> string) (rows : list product)
  : list (string * list product) :=
  map (fun k => (k, List.filter (fun p => String.eqb (key p) k) rows))
    (remove_dups (map key rows)).

(** A row of the discount-band frame. *)
Record band_row := { band : string; band_items : nat }.

(** A row of the price-bucket frame. *)
Record bucket_row := {
  price_bucket_of : string;
  bucket_items : nat;
  bucket_avg_discount_pct : cell
}.

(** [ORDER BY items DESC] *)
Definition items_desc {A} (items : A -> nat) (rows : list A) : list A :=
  merge_sort (fun a b => Is_true (items b <=? items a)%nat) rows.

(** The discount-band statement on a table state. *)
Definition bands (brand_sel : list string) (min_disc min_rating : Z)
  (table : list product) : list band_row :=
  items_desc band_items
    (map (fun g => {| band := fst g; band_items := List.length (snd g) |})
       (group_by (fun p => discount_band (discount_percent p))
          (matching brand_sel min_disc min_rating table))).

(** The price-bucket statement on a table state. *)
Definition price_buckets (brand_sel : list string) (min_disc min_rating : Z)
  (table : list product) : list bucket_row :=
  items_desc bucket_items
    (map (fun g =>
            {| price_bucket_of := fst g;
               bucket_items := List.length (snd g);
               bucket_avg_discount_pct :=
                 ROUND2 (AVG (map discount_percent (snd g))) |})
       (group_by (fun p => price_bucket (price p))
          (matching brand_sel min_disc min_rating table))).

(** What the script draws for a frame once it gets there: the bar chart
    over the index column, or the notice when the frame is empty.  The
    three tests stand below the KPI metrics in the script; their place in
    its run is [kpis_then_charts]. *)
Inductive drawn :=
| BarChart (bars : list (string * cell))
| Info (text : string).





(** The labels the two CASE expressions can give. *)
Definition band_labels : list string :=
  ["0%"; "0-20%"; "20-40%"; "40-60%"; "60%+"].

Definition bucket_labels : list string :=
  ["<500"; "500-999"; "1000-1999"; "2000-4999"; "5000+"].

End Distributions.

(** ** Choosing the packs to show *)

Module Chooser.
Import Py Packs.

(** What can go wrong in [pack_files[labels.index(lbl)]]. *)
Inductive pick_exn :=
| NotInList
| IndexOutOfRange.

(** [labels.index(lbl)]: the first position of [lbl], [ValueError] when it
    does not occur. *)
Fixpoint index (lbl : string) (labels : list string) : pick_exn + nat :=
  match labels with
  | [] => inl NotInList
  | l :: rest =>
      if String.eqb l lbl then inr O
      else
        match index lbl rest with
        | inr n => inr (S n)
        | inl e => inl e
        end
  end.

(** [pack_files[i]] for a position counted from the front. *)
Definition subscript (pack_files : list pack_file) (i : nat)
  : pick_exn + pack_file :=
  match pack_files !! i with
  | Some f => inr f
  | None => inl IndexOutOfRange
  end.

(** [labels = [f.stem for f in pack_files]] *)
Definition labels (pack_files : list pack_file) : list string :=
  map stem pack_files.

(** [default=labels[:1]] *)
Definition default_chosen (labels : list string) : list string :=
  take 1 labels.

(** [files_to_show = [pack_files[labels.index(lbl)] for lbl in chosen]] *)
Fixpoint files_to_show (pack_files : list pack_file) (chosen : list string)
  : pick_exn + list pack_file :=
  match chosen with
  | [] => inr []
  | lbl :: rest =>
      match index lbl (labels pack_files) with
      | inl e => inl e
      | inr i =>
          match subscript pack_files i with
          | inl e => inl e
          | inr f =>
              match files_to_show pack_files rest with
              | inl e => inl e
              | inr fs => inr (f :: fs)
              end
          end
      end
  end.

(** Values [for b in bullets] can walk through. *)
Definition iterable (v : json) : bool :=
  match v with
  | JArr _ | JStr _ | JObj _ => true
  | _ => false
  end.

Definition is_object (v : json) : bool :=
  match v with
  | JObj _ => true
  | _ => false
  end.

End Chooser.

(** ** More sample inputs *)

Module Fixtures.
Import Py.

(** A product of the given brand, discount and price; the list price is
    the price when [full_price] is set. *)
Definition item (brand : string) (discount price : Q) (full_price : bool)
  : Catalog.product :=
  {| Catalog.product_id := "sku";
     Catalog.title := "shirt";
     Catalog.brand := brand;
     Catalog.price := price;
     Catalog.mrp := if full_price then price else 2 * price;
     Catalog.discount_percent := discount;
     Catalog.rating := 4.2;
     Catalog.rating_total := 150 |}.

Definition shelf : list Catalog.product :=
  [ item "acme" 0 1200 true; item "zen" 25 450 false;
    item "acme" 10 300 false; item "o'neil" 25 2500 false ].

(** A pack directory with a pack that holds a JSON array and a pack that
    follows the schema. *)
Definition list_pack : Packs.pack_file :=
  {| Packs.path := "analytics_out/packs/list.json"; Packs.stem := "list" |}.

Definition weekly_pack : Packs.pack_file :=
  {| Packs.path := "analytics_out/packs/weekly.json"; Packs.stem := "weekly" |}.

Definition weekly : Packs.json :=
  Packs.JObj
    [ ("bullets", Packs.JArr [Packs.JStr "Discounts deepen above 2000"]);
      ("tables", Packs.JObj [("top_brands", Packs.JArr [])]) ].

Definition shared_disk : Packs.env :=
  {| Packs.read_text := fun p =>
       if String.eqb p "analytics_out/packs/list.json" then Returns "[1]"
       else if String.eqb p "analytics_out/packs/weekly.json" then Returns "weekly"
       else Raises OSError;
     Packs.json_loads := fun text =>
       if String.eqb text "[1]" then Returns (Packs.JArr [Packs.JInt 1])
       else if String.eqb text "weekly" then Returns weekly
       else Raises JSONDecodeError;
     Packs.pd_DataFrame := Samples.frame_of_no_rows |}.

(** A pack directory with one well-formed pack whose content is [null]. *)
Definition null_pack : Packs.pack_file :=
  {| Packs.path := "analytics_out/packs/null.json"; Packs.stem := "null" |}.

Definition null_disk : Packs.env :=
  {| Packs.read_text := fun p =>
       if String.eqb p "analytics_out/packs/null.json" then Returns "null"
       else Raises OSError;
     Packs.json_loads := fun text =>
       if String.eqb text "null" then Returns Packs.JNull
       else Raises JSONDecodeError;
     Packs.pd_DataFrame := Samples.frame_of_no_rows |}.

(** A directory in which nothing can be read. *)
Definition dead_disk : Packs.env :=
  {| Packs.read_text := fun _ => Raises OSError;
     Packs.json_loads := fun _ => Raises JSONDecodeError;
     Packs.pd_DataFrame := Samples.frame_of_no_rows |}.

End Fixtures.

(** * Properties *)

(** ** Escaping *)

Section Escaping.
Import Py Text.

Lemma replace_quote_doubles (s : string) :
  Py.replace "'" "''" s = double_quotes s.
Proof.
  unfold Py.replace.
  induction s as [|c t IH]; [reflexivity|].
  cbn [replace_from double_quotes String.prefix String.length Nat.sub].
  destruct (ascii_dec "'" c) as [<-|Hne].
  - assert (String.prefix "" t = true) as -> by (now destruct t).
    cbn. now rewrite IH.
  - assert (Ascii.eqb c quote = false) as ->
      by (apply Ascii.eqb_neq; unfold quote; congruence).
    now rewrite IH.
Qed.

Lemma not_prefix_quote (c : ascii) (r : string) :
  String.prefix "'" (String c r) = false -> Ascii.eqb c quote = false.
Proof.
  intros H. apply Ascii.eqb_neq. intros ->.
  unfold quote in H. simpl in H.
  destruct (ascii_dec "'" "'"); [|congruence].
  now destruct r.
Qed.

(** Reading an escaped body up to its closing quote gives the value back,
    provided the text that follows does not itself begin with a quote. *)
Lemma literal_body_double_quotes (v rest : string) :
  String.prefix "'" rest = false ->
  literal_body (double_quotes v +:+ String quote rest) = Some (v, rest).
Proof.
  intros Hrest.
  induction v as [|c t IH].
  - simpl.
    destruct rest as [|c' r]; [reflexivity|].
    now rewrite (not_prefix_quote _ _ Hrest).
  - simpl. destruct (Ascii.eqb c quote) eqn:E.
    + apply Ascii.eqb_eq in E. subst c. simpl. rewrite IH. reflexivity.
    + simpl. rewrite E, IH. reflexivity.
Qed.

Lemma sql_quote_shape (val : string) :
  sql_quote val = String quote (double_quotes val +:+ String quote "").
Proof. unfold sql_quote. now rewrite replace_quote_doubles. Qed.

Example sql_quote_apostrophe :
  sql_quote "Levi's" = "'Levi''s'" /\ parse_literal "'Levi''s'" = Some "Levi's".
Proof. split; reflexivity. Qed.

(** C1. [sql_quote] wraps the value in single quotes with every embedded
    quote doubled, and reading the produced literal by the string-literal
    rule of the query language gives back exactly the original string,
    for every input string. *)
Theorem sql_quote_round_trip (val : string) :
  sql_quote val = String quote (double_quotes val +:+ String quote "")
  /\ parse_literal (sql_quote val) = Some val.
Proof.
  split; [apply sql_quote_shape|].
  rewrite sql_quote_shape. unfold parse_literal.
  rewrite Ascii.eqb_refl, literal_body_double_quotes by reflexivity.
  reflexivity.
Qed.

End Escaping.

(** ** Statements issued *)

Section Statements.
Import Py Text.

Lemma lit_state_app (b : bool) (s1 s2 : string) :
  lit_state b (s1 +:+ s2) = lit_state (lit_state b s1) s2.
Proof. revert b. induction s1 as [|c t IH]; intros b; simpl; auto. Qed.

Lemma code_part_app (b : bool) (s1 s2 : string) :
  code_part b (s1 +:+ s2) = code_part b s1 +:+ code_part (lit_state b s1) s2.
Proof.
  revert b. induction s1 as [|c t IH]; intros b; simpl; [reflexivity|].
  destruct (Ascii.eqb c quote); [apply IH|].
  destruct b; simpl; now rewrite IH.
Qed.

Lemma has_char_app (a : ascii) (s1 s2 : string) :
  has_char a (s1 +:+ s2) = has_char a s1 || has_char a s2.
Proof.
  induction s1 as [|c t IH]; simpl; [reflexivity|].
  now rewrite IH, orb_assoc.
Qed.

Lemma tame_app (x y x' y' : string) :
  tame x y -> tame x' y' -> tame (x +:+ x') (y +:+ y').
Proof.
  intros (Hx & Hy & Hc & Hs) (Hx' & Hy' & Hc' & Hs').
  unfold tame.
  rewrite !lit_state_app, !code_part_app, has_char_app, Hx, Hy.
  rewrite <- Hc, <- Hc', Hs, Hs'. auto.
Qed.

(** Inside a literal an escaped value is passed over whole. *)
Lemma double_quotes_inside (s rest : string) :
  lit_state true (double_quotes s +:+ rest) = lit_state true rest
  /\ code_part true (double_quotes s +:+ rest) = code_part true rest.
Proof.
  induction s as [|c t [IH1 IH2]]; simpl; [auto|].
  destruct (Ascii.eqb c quote) eqn:E; simpl; rewrite ?E; simpl; auto.
Qed.

Lemma sql_quote_tame (b b' : string) : tame (sql_quote b) (sql_quote b').
Proof.
  assert (forall v, lit_state false (sql_quote v) = false
                    /\ code_part false (sql_quote v) = "") as H.
  { intros v. rewrite sql_quote_shape.
    simpl. destruct (double_quotes_inside v (String quote "")) as [-> ->].
    auto. }
  destruct (H b) as [H1 H2], (H b') as [H1' H2'].
  unfold tame. rewrite H1, H1', H2, H2'. auto.
Qed.

(** Text without quote or separator reads as code, whole. *)
Lemma plain_tame (s : string) :
  has_char quote s = false -> has_char ";" s = false -> tame s s.
Proof.
  intros Hq Hs.
  assert (lit_state false s = false /\ code_part false s = s) as [H1 H2].
  { induction s as [|c t IH]; simpl in *; [auto|].
    apply orb_false_iff in Hq as [Hc Hq], Hs as [_ Hs].
    rewrite Hc. destruct (IH Hq Hs) as [-> ->]. auto. }
  unfold tame. rewrite H1, H2. auto.
Qed.

Lemma uint_digits (d : Decimal.uint) :
  has_char quote (NilEmpty.string_of_uint d) = false
  /\ has_char ";" (NilEmpty.string_of_uint d) = false.
Proof. induction d as [|d [? ?]|d [? ?]|d [? ?]|d [? ?]|d [? ?]|d [? ?]|d [? ?]|d [? ?]|d [? ?]|d [? ?]]; simpl; auto. Qed.

Lemma str_int_tame (n : Z) : tame (str_int n) (str_int n).
Proof.
  unfold str_int.
  destruct (Z.to_int n) as [d|d]; simpl;
    destruct (uint_digits d) as [Hq Hs]; apply plain_tame; simpl; auto.
Qed.

Lemma str_tenths_tame (t : Z) : tame (str_tenths t) (str_tenths t).
Proof.
  unfold str_tenths.
  repeat apply tame_app; try apply str_int_tame.
  apply plain_tame; reflexivity.
Qed.

(** [join] keeps texts tame when the separator is. *)
Lemma join_tame (sep : string) (xs ys : list string) :
  tame sep sep -> Forall2 tame xs ys -> tame (join sep xs) (join sep ys).
Proof.
  intros Hsep H. unfold join.
  induction H as [|x y xs ys Hxy Hrest IH]; [apply plain_tame; reflexivity|].
  destruct Hrest as [|x' y' xs' ys' Hxy' Hrest'].
  - exact Hxy.
  - change (tame (x +:+ sep +:+ String.concat sep (x' :: xs'))
                 (y +:+ sep +:+ String.concat sep (y' :: ys'))).
    repeat apply tame_app; auto.
Qed.

Lemma quoted_tame (brand_sel : list string) :
  Forall2 tame (map sql_quote brand_sel) (map sql_quote (blank brand_sel)).
Proof.
  induction brand_sel as [|b bs IH]; simpl; constructor; auto using sql_quote_tame.
Qed.

Lemma where_sql_tame (brand_sel : list string) (min_disc min_rating : Z) :
  tame (where_sql brand_sel min_disc min_rating)
       (where_sql (blank brand_sel) min_disc min_rating).
Proof.
  unfold where_sql, where_clauses.
  assert (tame " AND " " AND ") as Hand by (apply plain_tame; reflexivity).
  assert (forall s : string, has_char quote s = false -> has_char ";" s = false ->
                             tame s s) as Hplain by apply plain_tame.
  assert (forall x y : string, tame x y -> Forall2 tame [x] [y]) as Hone
      by (intros x y H; apply List.Forall2_cons; [exact H|apply List.Forall2_nil]).
  apply join_tame; [exact Hand|].
  rewrite !map_app. repeat apply Forall2_app.
  - apply Hone, Hplain; reflexivity.
  - destruct brand_sel as [|b bs]; [apply List.Forall2_nil|].
    apply Hone. cbn [clause_sql].
    repeat apply tame_app; try (apply Hplain; reflexivity).
    apply join_tame; [apply Hplain; reflexivity|apply quoted_tame].
  - destruct (0 <? min_disc)%Z; [|apply List.Forall2_nil].
    apply Hone, tame_app; [apply Hplain; reflexivity|apply str_int_tame].
  - destruct (0 <? min_rating)%Z; [|apply List.Forall2_nil].
    apply Hone, tame_app; [apply Hplain; reflexivity|apply str_tenths_tame].
Qed.

Lemma tame_queries (w w' : string) :
  tame w w' ->
  Forall2 tame
    [brands_sql; kpis_sql w; bands_sql w; price_buckets_sql w;
     top_discounted_sql w; top_rated_sql w]
    [brands_sql; kpis_sql w'; bands_sql w'; price_buckets_sql w';
     top_discounted_sql w'; top_rated_sql w'].
Proof.
  intros Hw.
  assert (forall s : string,
             lit_state false s = false ->
             has_char ";" (code_part false s) = false -> tame s s) as Hfix
      by (intros s H1 H2; unfold tame; auto).
  assert (forall pre mid post : string,
             tame pre pre -> tame mid mid -> tame post post ->
             tame (pre +:+ SCHEMA_TABLE +:+ mid +:+ w +:+ post)
                  (pre +:+ SCHEMA_TABLE +:+ mid +:+ w' +:+ post)) as Hshape.
  { intros pre mid post Hpre Hmid Hpost.
    apply tame_app; [exact Hpre|].
    apply tame_app; [apply Hfix; reflexivity|].
    apply tame_app; [exact Hmid|].
    apply tame_app; [exact Hw|exact Hpost]. }
  apply List.Forall2_cons; [apply Hfix; vm_compute; reflexivity|].
  repeat (apply List.Forall2_cons;
          [apply Hshape; apply Hfix; vm_compute; reflexivity|]).
  apply List.Forall2_nil.
Qed.

(** With nothing selected the predicate is the tautology alone, and every
    row passes it. *)
Example where_sql_no_filter (p : Catalog.product) :
  where_sql [] 0 0 = "1=1" /\ Catalog.where_holds [] 0 0 p = true.
Proof. split; reflexivity. Qed.

Lemma first_keyword_queries (w : string) :
  Forall (fun sql => first_keyword sql = "SELECT")
    [brands_sql; kpis_sql w; bands_sql w; price_buckets_sql w;
     top_discounted_sql w; top_rated_sql w].
Proof. repeat constructor. Qed.

(** C2. Whatever brands, discount threshold and rating threshold the user
    picks, every statement the program hands to the gateway is a single
    SELECT statement: it opens with SELECT, closes every literal and has no
    statement separator outside a literal; and the code of each statement
    (its text with the literals taken out) is the same as for blank brand
    strings, so the interpolated values cannot change the kind of
    statement. *)
Theorem issued_queries_select_only
  (brand_sel : list string) (min_disc min_rating : Z) :
  Forall (fun sql => single_select sql = true)
    (issued_queries brand_sel min_disc min_rating)
  /\ map (code_part false) (issued_queries brand_sel min_disc min_rating)
     = map (code_part false) (issued_queries (blank brand_sel) min_disc min_rating).
Proof.
  unfold issued_queries.
  pose proof (where_sql_tame brand_sel min_disc min_rating) as Hw.
  revert Hw.
  generalize (where_sql brand_sel min_disc min_rating) as w.
  generalize (where_sql (blank brand_sel) min_disc min_rating) as w'.
  intros w' w Hw.
  pose proof (tame_queries w w' Hw) as Ht.
  pose proof (first_keyword_queries w) as Hk.
  split.
  - cbv zeta.
    repeat match goal with
           | H : Forall2 _ (_ :: _) (_ :: _) |- _ =>
               apply Forall2_cons_1 in H as [? H]
           | H : Forall _ (_ :: _) |- _ =>
               apply Forall_cons_1 in H as [? H]
           end.
    repeat (apply List.Forall_cons || apply List.Forall_nil); unfold single_select;
      match goal with
      | Hk' : first_keyword ?q = _, Ht' : tame ?q _ |- context [first_keyword ?q] =>
          rewrite Hk'; destruct Ht' as (-> & _ & _ & ->); reflexivity
      end.
  - cbv zeta. clear Hk.
    induction Ht as [|x y xs ys (_ & _ & Hc & _) _ IH]; [reflexivity|].
    simpl. now rewrite Hc, IH.
Qed.

End Statements.

(** ** The query cache *)

Section Cache.
Import Py QueryCache.

Lemma calls_of_snoc (sql : string) (c c' : gmap string entry) (calls : list string) :
  calls_of sql {| cache := c; gateway_calls := calls ++ [sql] |}
  = S (calls_of sql {| cache := c'; gateway_calls := calls |}).
Proof.
  unfold calls_of. cbn [gateway_calls].
  rewrite List.filter_app, List.length_app. cbn [List.filter].
  rewrite String.eqb_refl. cbn [List.length]. lia.
Qed.

(** A call that finds no fresh entry runs the gateway once and stores what
    the body returns, stamped with the time of the call. *)
Lemma q_miss (gw : gateway) (now : Z) (sql : string) (st : state) :
  cached now sql st = None ->
  q gw now sql st
  = match q_body (gw sql (List.length (gateway_calls st))) with
    | Returns df =>
        (Returns df,
         {| cache := <[sql := {| value_of := df; stored_at := now |}]> (cache st);
            gateway_calls := gateway_calls st ++ [sql] |})
    | Raises e =>
        (Raises e, {| cache := cache st; gateway_calls := gateway_calls st ++ [sql] |})
    end.
Proof. intros H. unfold q. now rewrite H. Qed.

(** A call that finds a fresh entry returns it and leaves the state alone. *)
Lemma q_hit (gw : gateway) (now : Z) (sql : string) (st : state) (df : DataFrame) :
  cached now sql st = Some df -> q gw now sql st = (Returns df, st).
Proof. intros H. unfold q. now rewrite H. Qed.

Lemma cached_after_store (t now : Z) (sql : string) (df : DataFrame)
  (c : gmap string entry) (calls : list string) :
  cached now sql
    {| cache := <[sql := {| value_of := df; stored_at := t |}]> c;
       gateway_calls := calls |}
  = if (now <? t + TTL)%Z then Some df else None.
Proof. unfold cached, fresh. cbn. now rewrite lookup_insert_eq. Qed.

(** One call leaves a fresh entry of another or the same text in place and
    does not run the gateway for it. *)
Lemma q_keeps_fresh (gw : gateway) (t : Z) (sql other : string) (e : entry)
  (st : state) :
  cache st !! sql = Some e ->
  (t < stored_at e + TTL)%Z ->
  cache (snd (q gw t other st)) !! sql = Some e
  /\ calls_of sql (snd (q gw t other st)) = calls_of sql st.
Proof.
  intros He Ht. unfold q.
  destruct (cached t other st) as [df|] eqn:Hc; [auto|].
  assert (other <> sql) as Hne.
  { intros ->. unfold cached in Hc. rewrite He in Hc.
    unfold fresh in Hc. destruct (Z.ltb_spec t (stored_at e + TTL)); [discriminate|lia]. }
  assert (calls_of sql {| cache := cache st; gateway_calls := gateway_calls st ++ [other] |}
          = calls_of sql st) as Hcalls.
  { unfold calls_of. cbn [gateway_calls].
    rewrite List.filter_app, List.length_app. cbn [List.filter].
    assert (String.eqb sql other = false) as -> by (apply String.eqb_neq; congruence).
    cbn [List.length]. lia. }
  destruct (q_body _) as [df|ex]; cbn [snd cache].
  - rewrite lookup_insert_ne by exact Hne. split; [exact He|exact Hcalls].
  - split; [exact He|exact Hcalls].
Qed.

Lemma run_keeps_fresh (gw : gateway) (calls : list (Z * string)) (sql : string)
  (e : entry) (st : state) :
  cache st !! sql = Some e ->
  Forall (fun c => (fst c < stored_at e + TTL)%Z) calls ->
  cache (run gw calls st) !! sql = Some e
  /\ calls_of sql (run gw calls st) = calls_of sql st.
Proof.
  intros He Hall. revert st He.
  induction Hall as [|c calls Hc _ IH]; intros st He; [auto|].
  cbn [run fold_left].
  destruct (q_keeps_fresh gw (fst c) sql (snd c) e st He Hc) as [He' Hn].
  destruct (IH _ He') as [He'' Hn'].
  unfold run in He'', Hn'. rewrite Hn' , Hn. auto.
Qed.

(** C3 (amended). Two calls with the same text, the first finding no fresh
    entry and getting an answer that is not a structured error, the second
    less than 300 time units later, with any calls in between that are made
    before the entry expires: the gateway runs the statement once and the
    second call returns the stored frame.  A further call 300 time units or
    more after the first runs the gateway a second time. *)
Theorem two_calls_within_ttl
  (gw : gateway) (sql : string) (t1 t2 t3 : Z) (between : list (Z * string))
  (st : state) :
  cached t1 sql st = None ->
  (forall message, gw sql (List.length (gateway_calls st)) <> GwError message) ->
  Forall (fun c => (fst c < t1 + 300)%Z) between ->
  (t1 <= t2 < t1 + 300)%Z ->
  (t1 + 300 <= t3)%Z ->
  let '(r1, st1) := q gw t1 sql st in
  let '(r2, st2) := q gw t2 sql (run gw between st1) in
  let '(r3, st3) := q gw t3 sql st2 in
  r2 = r1
  /\ (exists df, r1 = Returns df)
  /\ calls_of sql st1 = S (calls_of sql st)
  /\ calls_of sql st2 = S (calls_of sql st)
  /\ calls_of sql st3 = S (S (calls_of sql st)).
Proof.
  intros Hmiss Hok Hbetween Ht2 Ht3.
  rewrite (q_miss _ _ _ _ Hmiss).
  assert (exists df, q_body (gw sql (List.length (gateway_calls st))) = Returns df)
    as [df Hdf].
  { destruct (gw sql (List.length (gateway_calls st))) as [rows| |message] eqn:E;
      cbn; eauto. now destruct (Hok message). }
  rewrite Hdf.
  set (e := {| value_of := df; stored_at := t1 |}).
  set (st1 := {| cache := <[sql := e]> (cache st);
                 gateway_calls := gateway_calls st ++ [sql] |}).
  assert (calls_of sql st1 = S (calls_of sql st)) as Hn1
      by (destruct st; apply calls_of_snoc).
  destruct (run_keeps_fresh gw between sql e st1) as [He Hn];
    [apply lookup_insert_eq|exact Hbetween|].
  set (st1' := run gw between st1) in *.
  assert (cached t2 sql st1' = Some df) as Hhit.
  { unfold cached, fresh. rewrite He. cbn.
    destruct (Z.ltb_spec t2 (t1 + TTL)); [reflexivity|unfold TTL in *; lia]. }
  assert (cached t3 sql st1' = None) as Hgone.
  { unfold cached, fresh. rewrite He. cbn.
    destruct (Z.ltb_spec t3 (t1 + TTL)); [unfold TTL in *; lia|reflexivity]. }
  rewrite (q_hit gw t2 sql _ df Hhit), (q_miss _ _ _ _ Hgone).
  assert (forall c, calls_of sql {| cache := c; gateway_calls := gateway_calls st1' ++ [sql] |}
                    = S (S (calls_of sql st))) as Hn3.
  { intros c. rewrite (calls_of_snoc _ _ (cache st1')).
    destruct st1' as [c' calls'] eqn:E. cbn [cache gateway_calls].
    now rewrite Hn, Hn1. }
  destruct (q_body (gw sql (List.length (gateway_calls st1')))) as [df3|e3];
    cbv beta iota;
    (split; [reflexivity|]); (split; [eauto|]); (split; [exact Hn1|]);
    (split; [now rewrite Hn, Hn1|]); apply Hn3.
Qed.

(** The statement above at a concrete run: the counting gateway, calls at
    times 0, 299 and 300, and two other statements asked in between. *)
Lemma two_calls_within_ttl_witness :
  cached 0 "SELECT 1" empty_state = None
  /\ Forall (fun c => (fst c < 0 + 300)%Z) [(10%Z, "SELECT 2"); (20%Z, "SELECT 3")]
  /\ (let '(r1, st1) := q Samples.counting_gateway 0 "SELECT 1" empty_state in
      let '(r2, st2) :=
        q Samples.counting_gateway 299 "SELECT 1"
          (run Samples.counting_gateway
             [(10%Z, "SELECT 2"); (20%Z, "SELECT 3")] st1) in
      let '(r3, st3) := q Samples.counting_gateway 300 "SELECT 1" st2 in
      r2 = r1
      /\ (exists df, r1 = Returns df)
      /\ calls_of "SELECT 1" st1 = S (calls_of "SELECT 1" empty_state)
      /\ calls_of "SELECT 1" st2 = S (calls_of "SELECT 1" empty_state)
      /\ calls_of "SELECT 1" st3 = S (S (calls_of "SELECT 1" empty_state))).
Proof.
  assert (Forall (fun c : Z * string => (fst c < 0 + 300)%Z)
            [(10%Z, "SELECT 2"); (20%Z, "SELECT 3")]) as Hb
      by (repeat (apply List.Forall_cons; [reflexivity|]); apply List.Forall_nil).
  split; [reflexivity|]. split; [exact Hb|].
  apply (two_calls_within_ttl Samples.counting_gateway "SELECT 1" 0 299 300
           [(10%Z, "SELECT 2"); (20%Z, "SELECT 3")] empty_state).
  - reflexivity.
  - intros message. cbn. discriminate.
  - exact Hb.
  - lia.
  - lia.
Defined.

(** Without the condition on the gateway's answer the count is not one:
    when the gateway answers with the structured error nothing is stored, so two calls one time unit apart, from the empty
    cache, run the gateway twice and not once. *)
Lemma two_calls_error_counterexample :
  let '(r1, st1) := q Samples.failing_gateway 0 "SELECT 1" empty_state in
  let '(r2, st2) := q Samples.failing_gateway 1 "SELECT 1" st1 in
  (0 <= 1 < 0 + 300)%Z
  /\ calls_of "SELECT 1" st2 = 2%nat
  /\ calls_of "SELECT 1" st2 <> 1%nat.
Proof. vm_compute. repeat split; discriminate. Qed.

(** C4. When the gateway answers a statement with the structured error,
    [q] raises to its caller with the gateway's message and stores nothing:
    the cache is left as it was, so no frame, empty or not, is served for
    that statement later.  When the gateway answers with rows (or with
    nothing), [q] returns the frame without raising and stores it. *)
Theorem q_surfaces_gateway_errors
  (gw : gateway) (now : Z) (sql : string) (st : state) :
  cached now sql st = None ->
  let '(out, st') := q gw now sql st in
  match gw sql (List.length (gateway_calls st)) with
  | GwError message =>
      out = Raises (RuntimeError message)
      /\ cache st' = cache st
      /\ (forall t, cached t sql st' = cached t sql st)
  | GwRows rows =>
      out = Returns rows
      /\ cache st' !! sql = Some {| value_of := rows; stored_at := now |}
  | GwNone =>
      out = Returns []
      /\ cache st' !! sql = Some {| value_of := []; stored_at := now |}
  end.
Proof.
  intros Hmiss. rewrite (q_miss _ _ _ _ Hmiss).
  destruct (gw sql (List.length (gateway_calls st))) as [rows| |message];
    cbn [q_body cache]; rewrite ?lookup_insert_eq; auto.
Qed.

(** The statement above at a concrete run: the gateway that is down, asked
    from the empty cache. *)
Lemma q_surfaces_gateway_errors_witness :
  cached 0 "SELECT 1" empty_state = None
  /\ (let '(out, st') := q Samples.failing_gateway 0 "SELECT 1" empty_state in
      out = Raises (RuntimeError "connection refused")
      /\ cache st' = cache empty_state
      /\ (forall t, cached t "SELECT 1" st' = cached t "SELECT 1" empty_state)).
Proof.
  split; [reflexivity|].
  apply (q_surfaces_gateway_errors Samples.failing_gateway 0 "SELECT 1" empty_state).
  reflexivity.
Defined.

End Cache.

(** ** The catalog statements *)

Section Numbers.
Import Catalog.

Lemma Qltb_lt (x y : Q) : Qltb x y = true <-> (x < y)%Q.
Proof.
  unfold Qltb. rewrite negb_true_iff. split.
  - intros H. apply Qnot_le_lt. intros Hle.
    apply Qle_bool_iff in Hle. congruence.
  - intros H. destruct (Qle_bool y x) eqn:E; [|reflexivity].
    apply Qle_bool_iff in E. lra.
Qed.

Lemma Qltb_ge (x y : Q) : Qltb x y = false <-> (y <= x)%Q.
Proof.
  unfold Qltb. rewrite negb_false_iff. apply Qle_bool_iff.
Qed.

Lemma Qeq_bool_false (x y : Q) : Qeq_bool x y = false <-> ~ (x == y)%Q.
Proof.
  split.
  - intros H Heq. apply Qeq_bool_iff in Heq. congruence.
  - intros H. destruct (Qeq_bool x y) eqn:E; [|reflexivity].
    apply Qeq_bool_iff in E. contradiction.
Qed.

End Numbers.

Section Kpis.
Import Py Text Catalog.

(** The fallback of the script does what it is there for: on an empty
    frame the summary is all zeros and the metrics are drawn. *)
Lemma kpis_fallback_zero :
  kpis [] = zero_series
  /\ kpi_metrics (kpis [])
     = Returns [ Metric "Products" (Int 0); Metric "Avg Price" (Int 0);
                 Metric "Avg MRP" (Int 0); Metric "Avg Discount %" (Int 0);
                 Metric "No-discount Items" (Int 0) ].
Proof. split; reflexivity. Qed.


(** C5 (the code departs from the claim). When the filter matches no row,
    the KPI statement still answers with one row: the count is 0, but the
    averages and the sum are NULL.  The frame is not empty, the zero
    fallback is not taken, and [int] of the missing sum raises. *)
Theorem kpis_on_no_match
  (brand_sel : list string) (min_disc min_rating : Z) (table : list product) :
  matching brand_sel min_disc min_rating table = [] ->
  kpis (kpis_rows brand_sel min_disc min_rating table)
  = {| products := Int 0; avg_price := Null; avg_mrp := Null;
       avg_discount_pct := Null; no_discount_items := Null |}
  /\ kpi_section brand_sel min_disc min_rating table = Raises TypeError.
Proof.
  intros H. unfold kpi_section, kpis_rows. rewrite H. split; reflexivity.
Qed.

(** The statement above at a concrete table: 51 products, none of them
    discounted by 90 percent or more, under a minimum discount of 90. *)
Lemma kpis_on_no_match_witness :
  matching [] 90 0 Samples.crowd = []
  /\ kpis (kpis_rows [] 90 0 Samples.crowd)
     = {| products := Int 0; avg_price := Null; avg_mrp := Null;
          avg_discount_pct := Null; no_discount_items := Null |}
  /\ kpi_section [] 90 0 Samples.crowd = Raises TypeError.
Proof.
  assert (matching [] 90 0 Samples.crowd = []) as H by (vm_compute; reflexivity).
  split; [exact H|].
  apply (kpis_on_no_match [] 90 0 Samples.crowd H).
Defined.

End Kpis.

Section Bands.
Import Catalog.

Ltac q_cases :=
  repeat match goal with
         | H : Qeq_bool _ _ = true |- _ => apply Qeq_bool_iff in H
         | H : Qeq_bool _ _ = false |- _ => apply Qeq_bool_false in H
         | H : Qltb _ _ = true |- _ => apply Qltb_lt in H
         | H : Qltb _ _ = false |- _ => apply Qltb_ge in H
         end.

Example discount_band_examples :
  discount_band 0 = "0%" /\ discount_band 19.9 = "0-20%"
  /\ discount_band 40 = "40-60%" /\ discount_band 99 = "60%+".
Proof. repeat split; reflexivity. Qed.

Example price_bucket_examples :
  price_bucket 499.99 = "<500" /\ price_bucket 1000 = "1000-1999"
  /\ price_bucket 5000 = "5000+".
Proof. repeat split; reflexivity. Qed.

(** C6. The band of a discount in [0, 100] and the bucket of a price from
    0 upwards follow the fixed boundaries, upper bounds excluded, so each
    value has exactly one label. *)
Theorem bands_and_buckets (d p : Q) :
  (0 <= d <= 100)%Q ->
  (0 <= p)%Q ->
  ((discount_band d = "0%" <-> (d == 0)%Q)
   /\ (discount_band d = "0-20%" <-> (0 < d < 20)%Q)
   /\ (discount_band d = "20-40%" <-> (20 <= d < 40)%Q)
   /\ (discount_band d = "40-60%" <-> (40 <= d < 60)%Q)
   /\ (discount_band d = "60%+" <-> (60 <= d)%Q))
  /\ ((price_bucket p = "<500" <-> (p < 500)%Q)
      /\ (price_bucket p = "500-999" <-> (500 <= p < 1000)%Q)
      /\ (price_bucket p = "1000-1999" <-> (1000 <= p < 2000)%Q)
      /\ (price_bucket p = "2000-4999" <-> (2000 <= p < 5000)%Q)
      /\ (price_bucket p = "5000+" <-> (5000 <= p)%Q)).
Proof.
  intros Hd Hp. unfold discount_band, price_bucket. split.
  - destruct (Qeq_bool d 0) eqn:E0; [|destruct (Qltb d 20) eqn:E20;
      [|destruct (Qltb d 40) eqn:E40; [|destruct (Qltb d 60) eqn:E60]]];
      q_cases; repeat split; intros; try discriminate; try lra.
  - destruct (Qltb p 500) eqn:E5; [|destruct (Qltb p 1000) eqn:E10;
      [|destruct (Qltb p 2000) eqn:E20; [|destruct (Qltb p 5000) eqn:E50]]];
      q_cases; repeat split; intros; try discriminate; try lra.
Qed.

(** The statement above at two values named in the specification: a
    discount of 19.9 and a price of 499.99. *)
Lemma bands_and_buckets_witness :
  (0 <= 19.9 <= 100)%Q
  /\ (0 <= 499.99)%Q
  /\ ((discount_band 19.9 = "0%" <-> (19.9 == 0)%Q)
      /\ (discount_band 19.9 = "0-20%" <-> (0 < 19.9 < 20)%Q)
      /\ (discount_band 19.9 = "20-40%" <-> (20 <= 19.9 < 40)%Q)
      /\ (discount_band 19.9 = "40-60%" <-> (40 <= 19.9 < 60)%Q)
      /\ (discount_band 19.9 = "60%+" <-> (60 <= 19.9)%Q))
  /\ ((price_bucket 499.99 = "<500" <-> (499.99 < 500)%Q)
      /\ (price_bucket 499.99 = "500-999" <-> (500 <= 499.99 < 1000)%Q)
      /\ (price_bucket 499.99 = "1000-1999" <-> (1000 <= 499.99 < 2000)%Q)
      /\ (price_bucket 499.99 = "2000-4999" <-> (2000 <= 499.99 < 5000)%Q)
      /\ (price_bucket 499.99 = "5000+" <-> (5000 <= 499.99)%Q)).
Proof.
  assert ((0 <= 19.9 <= 100)%Q) as Hd by (split; discriminate).
  assert ((0 <= 499.99)%Q) as Hp by discriminate.
  split; [exact Hd|]. split; [exact Hp|].
  apply (bands_and_buckets 19.9 499.99 Hd Hp).
Defined.

End Bands.

Section Ranked.
Import Py Text Catalog.

(** What [ORDER BY ... LIMIT 50] gives for any order that is total and
    transitive. *)
Lemma order_by_limit
  (leb : product -> product -> bool) (R : relation product)
  (Hleb : forall a b, leb a b = true <-> R a b)
  (Htotal : forall a b, R a b \/ R b a)
  (Htrans : forall a b c, R a b -> R b c -> R a c)
  (rows : list product) :
  List.length (take LIMIT (order_by leb rows)) = Nat.min 50 (List.length rows)
  /\ StronglySorted R (take LIMIT (order_by leb rows))
  /\ exists rest,
      take LIMIT (order_by leb rows) ++ rest ≡ₚ rows
      /\ Forall (fun a => Forall (R a) rest) (take LIMIT (order_by leb rows)).
Proof.
  unfold order_by.
  set (R' := fun a b => Is_true (leb a b)).
  assert (forall a b, R' a b <-> R a b) as HR
      by (intros a b; unfold R'; rewrite Is_true_true; apply Hleb).
  assert (Total R') as Htot by (intros a b; rewrite !HR; apply Htotal).
  assert (Transitive R') as Htr
      by (intros a b c; rewrite !HR; apply Htrans).
  pose proof (StronglySorted_merge_sort R' rows) as Hsorted.
  pose proof (merge_sort_Permutation R' rows) as Hperm.
  set (sorted := merge_sort R' rows) in *.
  rewrite <- (take_drop LIMIT sorted) in Hsorted.
  apply StronglySorted_app in Hsorted as (Hcross & Htop & _).
  assert (forall l, StronglySorted R' l -> StronglySorted R l) as Hmono.
  { induction 1 as [|a l _ IH Hall]; constructor; [exact IH|].
    eapply Forall_impl; [exact Hall|]. intros b; apply HR. }
  split; [|split].
  - rewrite length_take, (Permutation_length Hperm). reflexivity.
  - apply Hmono, Htop.
  - exists (drop LIMIT sorted). split.
    + now rewrite take_drop.
    + apply Forall_forall. intros a Ha. apply Forall_forall. intros b Hb.
      apply HR. now apply Hcross.
Qed.

Lemma discount_desc_price_asc_spec (a b : product) :
  discount_desc_price_asc a b = true <-> by_discount_then_price a b.
Proof.
  unfold discount_desc_price_asc, by_discount_then_price.
  now rewrite orb_true_iff, andb_true_iff, Qltb_lt, Qeq_bool_iff, Qle_bool_iff.
Qed.

Lemma by_discount_then_price_total (a b : product) :
  by_discount_then_price a b \/ by_discount_then_price b a.
Proof.
  unfold by_discount_then_price.
  destruct (Q_dec (discount_percent a) (discount_percent b)) as [[Hlt|Hgt]|Heq];
    [right; left; exact Hlt|left; left; exact Hgt|].
  destruct (Qlt_le_dec (price b) (price a)) as [Hp|Hp].
  - right; right. split; [symmetry; exact Heq|lra].
  - left; right. split; [exact Heq|exact Hp].
Qed.

Lemma by_discount_then_price_trans (a b c : product) :
  by_discount_then_price a b -> by_discount_then_price b c ->
  by_discount_then_price a c.
Proof.
  unfold by_discount_then_price.
  intros [H1|[H1 H1']] [H2|[H2 H2']];
    [left; lra|left; lra|left; lra|right; split; lra].
Qed.

Lemma rating_desc_total_desc_spec (a b : product) :
  rating_desc_total_desc a b = true <-> by_rating_then_total a b.
Proof.
  unfold rating_desc_total_desc, by_rating_then_total.
  now rewrite orb_true_iff, andb_true_iff, Qltb_lt, Qeq_bool_iff, Z.leb_le.
Qed.

Lemma by_rating_then_total_total (a b : product) :
  by_rating_then_total a b \/ by_rating_then_total b a.
Proof.
  unfold by_rating_then_total.
  destruct (Q_dec (rating a) (rating b)) as [[Hlt|Hgt]|Heq];
    [right; left; exact Hlt|left; left; exact Hgt|].
  destruct (Z_le_gt_dec (rating_total b) (rating_total a)) as [Hn|Hn].
  - left; right. split; [exact Heq|exact Hn].
  - right; right. split; [symmetry; exact Heq|lia].
Qed.

Lemma by_rating_then_total_trans (a b c : product) :
  by_rating_then_total a b -> by_rating_then_total b c ->
  by_rating_then_total a c.
Proof.
  unfold by_rating_then_total.
  intros [H1|[H1 H1']] [H2|[H2 H2']];
    [left; lra|left; lra|left; lra|right; split; [lra|lia]].
Qed.

(** Rows kept by a filter come from the list and pass the test. *)
Lemma top_rows_from (test : product -> bool) (n : nat)
  (table sorted : list product) :
  sorted ≡ₚ List.filter test table ->
  Forall (fun p => p ∈ table /\ test p = true) (take n sorted).
Proof.
  intros Hperm. apply Forall_forall. intros p Hp.
  assert (p ∈ sorted) as Hin by (eapply subseteq_take; exact Hp).
  rewrite Hperm in Hin. apply list_elem_of_In, List.filter_In in Hin as [Hin Ht].
  split; [now apply list_elem_of_In|exact Ht].
Qed.

End Ranked.

Section RankedTables.
Import Py Text Catalog.

(** C7. On every table state and for every filter, the top-discounted
    statement returns at most 50 rows, all of them rows of the table that
    pass the filter, ordered by discount descending with ties broken by
    price ascending; the rows left out rank after every row returned.  For
    rows with discounts 50, 50, 30 and prices 200, 100, 50 the order is
    (50, 100), (50, 200), (30, 50). *)
Theorem top_discounted_ranked
  (brand_sel : list string) (min_disc min_rating : Z) (table : list product)
  (r1 r2 r3 : product) :
  (List.length (top_discounted brand_sel min_disc min_rating table) <= 50)%nat
  /\ List.length (top_discounted brand_sel min_disc min_rating table)
     = Nat.min 50 (List.length (matching brand_sel min_disc min_rating table))
  /\ StronglySorted by_discount_then_price
       (top_discounted brand_sel min_disc min_rating table)
  /\ Forall (fun p => p ∈ table /\ where_holds brand_sel min_disc min_rating p = true)
       (top_discounted brand_sel min_disc min_rating table)
  /\ (exists rest,
        top_discounted brand_sel min_disc min_rating table ++ rest
          ≡ₚ matching brand_sel min_disc min_rating table
        /\ Forall (fun a => Forall (by_discount_then_price a) rest)
             (top_discounted brand_sel min_disc min_rating table))
  /\ top_discounted [] 0 0
       [Samples.row_with r1 50 200; Samples.row_with r2 50 100;
        Samples.row_with r3 30 50]
     = [Samples.row_with r2 50 100; Samples.row_with r1 50 200;
        Samples.row_with r3 30 50].
Proof.
  unfold top_discounted.
  destruct (order_by_limit discount_desc_price_asc by_discount_then_price
              discount_desc_price_asc_spec by_discount_then_price_total
              by_discount_then_price_trans
              (matching brand_sel min_disc min_rating table))
    as (Hlen & Hsorted & Hrest).
  split; [rewrite Hlen; lia|].
  split; [exact Hlen|].
  split; [exact Hsorted|].
  split; [|split; [exact Hrest|reflexivity]].
  apply top_rows_from. unfold order_by. apply merge_sort_Permutation.
Qed.

(** C8 (amended). On every table state and for every filter, the top-rated
    statement returns at most 50 rows, each of them a row of the table that
    passes the filter and has rating_total >= 100 and rating >= 4, ordered
    by rating descending with ties broken by rating_total descending; the
    qualifying rows left out (there are some only when more than 50
    qualify) rank after every row returned. *)
Theorem top_rated_ranked
  (brand_sel : list string) (min_disc min_rating : Z) (table : list product) :
  (List.length (top_rated brand_sel min_disc min_rating table) <= 50)%nat
  /\ List.length (top_rated brand_sel min_disc min_rating table)
     = Nat.min 50
         (List.length
            (List.filter well_rated (matching brand_sel min_disc min_rating table)))
  /\ StronglySorted by_rating_then_total
       (top_rated brand_sel min_disc min_rating table)
  /\ Forall (fun p => p ∈ table
                      /\ where_holds brand_sel min_disc min_rating p = true
                      /\ (100 <= rating_total p)%Z
                      /\ (4 <= rating p)%Q)
       (top_rated brand_sel min_disc min_rating table)
  /\ (exists rest,
        top_rated brand_sel min_disc min_rating table ++ rest
          ≡ₚ List.filter well_rated (matching brand_sel min_disc min_rating table)
        /\ Forall (fun a => Forall (by_rating_then_total a) rest)
             (top_rated brand_sel min_disc min_rating table)).
Proof.
  unfold top_rated.
  destruct (order_by_limit rating_desc_total_desc by_rating_then_total
              rating_desc_total_desc_spec by_rating_then_total_total
              by_rating_then_total_trans
              (List.filter well_rated (matching brand_sel min_disc min_rating table)))
    as (Hlen & Hsorted & Hrest).
  split; [rewrite Hlen; lia|].
  split; [exact Hlen|].
  split; [exact Hsorted|].
  split; [|exact Hrest].
  eapply Forall_impl.
  - apply (top_rows_from well_rated LIMIT
             (matching brand_sel min_disc min_rating table)).
    unfold order_by. apply merge_sort_Permutation.
  - intros p [Hin Hwell]. unfold matching in Hin.
    apply list_elem_of_In, List.filter_In in Hin as [Hin Hwhere].
    unfold well_rated in Hwell.
    apply andb_true_iff in Hwell as [Hn Hr].
    apply Z.leb_le in Hn. apply Qle_bool_iff in Hr.
    repeat split; auto. now apply list_elem_of_In.
Qed.

(** The rows returned are not all the qualifying rows once more than 50
    qualify: of 51 well-rated
    products the one with the fewest ratings passes the filter, has
    rating_total >= 100 and rating >= 4, and is not among the rows
    returned. *)
Lemma top_rated_limit_counterexample :
  Samples.popular 0 ∈ Samples.crowd
  /\ where_holds [] 0 0 (Samples.popular 0) = true
  /\ (100 <= rating_total (Samples.popular 0))%Z
  /\ (4 <= rating (Samples.popular 0))%Q
  /\ List.length (top_rated [] 0 0 Samples.crowd) = 50%nat
  /\ ~ Samples.popular 0 ∈ top_rated [] 0 0 Samples.crowd.
Proof.
  split; [left|]. split; [reflexivity|]. split; [vm_compute; discriminate|].
  split; [vm_compute; discriminate|]. split; [vm_compute; reflexivity|].
  intros Hin. apply list_elem_of_In in Hin.
  assert (forallb (fun p => negb (rating_total p =? 100)%Z)
            (top_rated [] 0 0 Samples.crowd) = true) as Hall
      by (vm_compute; reflexivity).
  rewrite forallb_forall in Hall. specialize (Hall _ Hin).
  vm_compute in Hall. discriminate.
Qed.

End RankedTables.

(** ** The pack loader and its viewer *)

Section PackLoader.
Import Py Packs.

Lemma load_pack_body_total (w : env) (path_str : string) :
  load_pack_body w path_str
  = Returns
      match read_text w path_str with
      | Raises _ => empty_struct
      | Returns text =>
          match json_loads w text with
          | Raises _ => empty_struct
          | Returns v => v
          end
      end.
Proof.
  unfold load_pack_body, try_except, mbind, outcome_bind, bind.
  destruct (read_text w path_str) as [text|e]; [|reflexivity].
  now destruct (json_loads w text).
Qed.

Lemma load_pack_miss (w : env) (path_str : string) (m : memo) (v : json) :
  memo_get path_str m = None ->
  load_pack_body w path_str = Returns v ->
  load_pack w path_str m = (Returns v, take maxsize ((path_str, v) :: m)).
Proof. intros Hm Hb. unfold load_pack. now rewrite Hm, Hb. Qed.

Lemma unreadable_body (w : env) (path_str : string) :
  unreadable w path_str = true ->
  load_pack_body w path_str = Returns empty_struct.
Proof.
  intros H. rewrite load_pack_body_total. unfold unreadable in H.
  destruct (read_text w path_str) as [text|e]; [|reflexivity].
  destruct (json_loads w text); [discriminate|reflexivity].
Qed.

(** A falsy pack is answered with the warning, whatever it is. *)
Lemma show_pack_falsy (w : env) (pack : json) :
  truthy pack = false ->
  show_pack w pack = Returns [Warning "Could not read this pack."].
Proof. intros H. unfold show_pack. now rewrite H. Qed.

(** The loop draws the heading and the warning for a falsy pack and goes on
    with the next file. *)
Lemma view_from_falsy (w : env) (ncols i : nat) (f : pack_file)
  (rest : list pack_file) (m m' : memo) (pack : json) :
  load_pack w (path f) m = (Returns pack, m') ->
  truthy pack = false ->
  view_from w ncols i (f :: rest) m
  = prepend [ (i mod ncols, Markdown ("**" +:+ stem f +:+ "**"));
              (i mod ncols, Warning "Could not read this pack.") ]
      (view_from w ncols (S i) rest m').
Proof.
  intros Hload Hfalsy. cbn [view_from].
  now rewrite Hload, (show_pack_falsy w _ Hfalsy).
Qed.

(** The same, with what is drawn written out: the heading and the warning
    of the falsy pack come first, then what the remaining packs draw; only
    an exception among the remaining packs ends the view. *)
Lemma view_from_falsy_drawn (w : env) (ncols i : nat) (f : pack_file)
  (rest : list pack_file) (m m' : memo) (pack : json) :
  load_pack w (path f) m = (Returns pack, m') ->
  truthy pack = false ->
  view_from w ncols i [f] m
  = (Returns [ (i mod ncols, Markdown ("**" +:+ stem f +:+ "**"));
               (i mod ncols, Warning "Could not read this pack.") ], m')
  /\ view_from w ncols i (f :: rest) m
     = match view_from w ncols (S i) rest m' with
       | (Returns later, m'') =>
           (Returns ((i mod ncols, Markdown ("**" +:+ stem f +:+ "**"))
                     :: (i mod ncols, Warning "Could not read this pack.")
                     :: later), m'')
       | (Raises e, m'') => (Raises e, m'')
       end.
Proof.
  intros Hload Hfalsy. split.
  - rewrite (view_from_falsy w ncols i f [] m m' pack Hload Hfalsy). reflexivity.
  - rewrite (view_from_falsy w ncols i f rest m m' pack Hload Hfalsy).
    now destruct (view_from w ncols (S i) rest m') as [[later|e] m''].
Qed.

(** C9. [load_pack] never raises: for every path and memo table it returns
    a value, which on a miss is the decoded JSON when reading and decoding
    succeed and the empty structure when either fails.  For a file that
    cannot be read or decoded the viewer draws the heading of that pack and
    the warning, and nothing else for it; the view then goes on with the
    remaining packs, whose drawing follows the warning. *)
Theorem load_pack_never_raises (w : env) (path_str : string) (m : memo) :
  (exists v, fst (load_pack w path_str m) = Returns v)
  /\ fst (load_pack w path_str m)
     = Returns
         match memo_get path_str m with
         | Some v => v
         | None =>
             match read_text w path_str with
             | Raises _ => empty_struct
             | Returns text =>
                 match json_loads w text with
                 | Raises _ => empty_struct
                 | Returns v => v
                 end
             end
         end
  /\ (forall (f : pack_file) (rest : list pack_file) (ncols i : nat),
        path f = path_str ->
        memo_get path_str m = None ->
        unreadable w path_str = true ->
        fst (load_pack w path_str m) = Returns empty_struct
        /\ show_pack w empty_struct = Returns [Warning "Could not read this pack."]
        /\ view_from w ncols i [f] m
           = (Returns [ (i mod ncols, Markdown ("**" +:+ stem f +:+ "**"));
                        (i mod ncols, Warning "Could not read this pack.") ],
              take maxsize ((path_str, empty_struct) :: m))
        /\ view_from w ncols i (f :: rest) m
           = match view_from w ncols (S i) rest
                     (take maxsize ((path_str, empty_struct) :: m)) with
             | (Returns later, m'') =>
                 (Returns ((i mod ncols, Markdown ("**" +:+ stem f +:+ "**"))
                           :: (i mod ncols, Warning "Could not read this pack.")
                           :: later), m'')
             | (Raises e, m'') => (Raises e, m'')
             end).
Proof.
  assert (fst (load_pack w path_str m)
          = Returns
              match memo_get path_str m with
              | Some v => v
              | None =>
                  match read_text w path_str with
                  | Raises _ => empty_struct
                  | Returns text =>
                      match json_loads w text with
                      | Raises _ => empty_struct
                      | Returns v => v
                      end
                  end
              end) as Hval.
  { unfold load_pack. destruct (memo_get path_str m) as [v|]; [reflexivity|].
    now rewrite load_pack_body_total. }
  split; [eauto|]. split; [exact Hval|].
  intros f rest ncols i Hpath Hmiss Hbad.
  pose proof (load_pack_miss w path_str m empty_struct Hmiss
                (unreadable_body w path_str Hbad)) as Hload.
  split; [now rewrite Hload|]. split; [reflexivity|].
  subst path_str.
  apply (view_from_falsy_drawn w ncols i f rest m _ empty_struct Hload).
  reflexivity.
Qed.

(** The statement above at a concrete run: the truncated pack of the
    sample directory, viewed first with the well-formed pack after it. *)
Lemma load_pack_never_raises_witness :
  path Samples.broken_pack = "analytics_out/packs/broken.json"
  /\ memo_get "analytics_out/packs/broken.json" [] = None
  /\ unreadable Samples.disk "analytics_out/packs/broken.json" = true
  /\ fst (load_pack Samples.disk "analytics_out/packs/broken.json" [])
     = Returns empty_struct
  /\ show_pack Samples.disk empty_struct
     = Returns [Warning "Could not read this pack."]
  /\ view_from Samples.disk 2 0 [Samples.broken_pack] []
     = (Returns [ (0%nat, Markdown "**broken**");
                  (0%nat, Warning "Could not read this pack.") ],
        [("analytics_out/packs/broken.json", empty_struct)])
  /\ view_from Samples.disk 2 0 [Samples.broken_pack; Samples.empty_pack] []
     = (Returns [ (0%nat, Markdown "**broken**");
                  (0%nat, Warning "Could not read this pack.");
                  (1%nat, Markdown "**empty**");
                  (1%nat, Warning "Could not read this pack.") ],
        [("analytics_out/packs/empty.json", JObj []);
         ("analytics_out/packs/broken.json", empty_struct)]).
Proof.
  split; [reflexivity|]. split; [reflexivity|]. split; [reflexivity|].
  destruct (load_pack_never_raises Samples.disk "analytics_out/packs/broken.json" [])
    as (_ & _ & H).
  exact (H Samples.broken_pack [Samples.empty_pack] 2%nat 0%nat
           eq_refl eq_refl eq_refl).
Defined.

(** C10 (amended). [load_pack] hands back the decoded JSON as it is.  For a
    pack whose content is well-formed JSON for a falsy value (the empty
    object, null, the empty array, zero, the empty string) the result is
    falsy like the empty structure of a failed read, and equal to it only
    when the content is the empty object; the viewer, which tests nothing
    but truthiness, draws such a pack exactly as the same file when it
    cannot be read: its heading and the warning. *)
Theorem falsy_pack_shown_as_unreadable
  (w w' : env) (f : pack_file) (rest : list pack_file) (ncols i : nat) (m : memo)
  (text : string) (v : json) :
  memo_get (path f) m = None ->
  read_text w (path f) = Returns text ->
  json_loads w text = Returns v ->
  truthy v = false ->
  unreadable w' (path f) = true ->
  load_pack w (path f) m = (Returns v, take maxsize ((path f, v) :: m))
  /\ fst (load_pack w' (path f) m) = Returns empty_struct
  /\ (fst (load_pack w (path f) m) = fst (load_pack w' (path f) m)
      <-> v = empty_struct)
  /\ truthy v = truthy empty_struct
  /\ show_pack w v = Returns [Warning "Could not read this pack."]
  /\ view_from w ncols i [f] m
     = (Returns [ (i mod ncols, Markdown ("**" +:+ stem f +:+ "**"));
                  (i mod ncols, Warning "Could not read this pack.") ],
        take maxsize ((path f, v) :: m))
  /\ fst (view_from w ncols i [f] m) = fst (view_from w' ncols i [f] m)
  /\ view_from w ncols i (f :: rest) m
     = match view_from w ncols (S i) rest (take maxsize ((path f, v) :: m)) with
       | (Returns later, m'') =>
           (Returns ((i mod ncols, Markdown ("**" +:+ stem f +:+ "**"))
                     :: (i mod ncols, Warning "Could not read this pack.")
                     :: later), m'')
       | (Raises e, m'') => (Raises e, m'')
       end
  /\ truthy (JObj []) = false
  /\ truthy JNull = false
  /\ truthy (JArr []) = false
  /\ truthy (JInt 0) = false
  /\ truthy (JStr "") = false.
Proof.
  intros Hmiss Hread Hjson Hfalsy Hbad.
  assert (load_pack w (path f) m = (Returns v, take maxsize ((path f, v) :: m)))
    as Hload.
  { apply load_pack_miss; [exact Hmiss|].
    now rewrite load_pack_body_total, Hread, Hjson. }
  pose proof (load_pack_miss w' (path f) m empty_struct Hmiss
                (unreadable_body w' (path f) Hbad)) as Hload'.
  destruct (view_from_falsy_drawn w ncols i f rest m _ v Hload Hfalsy)
    as [Hone Hmany].
  destruct (view_from_falsy_drawn w' ncols i f rest m _ empty_struct Hload' eq_refl)
    as [Hone' _].
  split; [exact Hload|].
  split; [now rewrite Hload'|].
  split; [rewrite Hload, Hload'; cbn [fst]; split; congruence|].
  split; [rewrite Hfalsy; reflexivity|].
  split; [now apply show_pack_falsy|].
  split; [exact Hone|].
  split; [now rewrite Hone, Hone'|].
  split; [exact Hmany|].
  repeat split; reflexivity.
Qed.

(** The statement above at a concrete run: the pack of the sample
    directory that holds [{}], against a directory in which nothing can be
    read. *)
Lemma falsy_pack_shown_as_unreadable_witness :
  memo_get (path Samples.empty_pack) [] = None
  /\ read_text Samples.disk (path Samples.empty_pack) = Returns "{}"
  /\ json_loads Samples.disk "{}" = Returns (JObj [])
  /\ truthy (JObj []) = false
  /\ unreadable Fixtures.dead_disk (path Samples.empty_pack) = true
  /\ load_pack Samples.disk (path Samples.empty_pack) []
     = (Returns (JObj []), take maxsize [(path Samples.empty_pack, JObj [])])
  /\ fst (load_pack Fixtures.dead_disk (path Samples.empty_pack) [])
     = Returns empty_struct
  /\ (fst (load_pack Samples.disk (path Samples.empty_pack) [])
      = fst (load_pack Fixtures.dead_disk (path Samples.empty_pack) [])
      <-> JObj [] = empty_struct)
  /\ truthy (JObj []) = truthy empty_struct
  /\ show_pack Samples.disk (JObj []) = Returns [Warning "Could not read this pack."]
  /\ view_from Samples.disk 1 0 [Samples.empty_pack] []
     = (Returns [ (0 mod 1, Markdown ("**" +:+ stem Samples.empty_pack +:+ "**"));
                  (0 mod 1, Warning "Could not read this pack.") ],
        take maxsize [(path Samples.empty_pack, JObj [])])
  /\ fst (view_from Samples.disk 1 0 [Samples.empty_pack] [])
     = fst (view_from Fixtures.dead_disk 1 0 [Samples.empty_pack] [])
  /\ view_from Samples.disk 1 0 [Samples.empty_pack] []
     = match view_from Samples.disk 1 1 []
               (take maxsize [(path Samples.empty_pack, JObj [])]) with
       | (Returns later, m'') =>
           (Returns ((0 mod 1, Markdown ("**" +:+ stem Samples.empty_pack +:+ "**"))
                     :: (0 mod 1, Warning "Could not read this pack.")
                     :: later), m'')
       | (Raises e, m'') => (Raises e, m'')
       end
  /\ truthy (JObj []) = false
  /\ truthy JNull = false
  /\ truthy (JArr []) = false
  /\ truthy (JInt 0) = false
  /\ truthy (JStr "") = false.
Proof.
  split; [reflexivity|]. split; [reflexivity|]. split; [reflexivity|].
  split; [reflexivity|]. split; [reflexivity|].
  apply (falsy_pack_shown_as_unreadable Samples.disk Fixtures.dead_disk
           Samples.empty_pack [] 1%nat 0%nat [] "{}" (JObj [])); reflexivity.
Defined.

(** The result itself can be told from that of a failed read: a pack whose
    content is [null] decodes to [None], a falsy value, while the same
    file, when it cannot be read, gives the empty structure [{}]. *)
Lemma null_pack_result_differs :
  read_text Fixtures.null_disk (path Fixtures.null_pack) = Returns "null"
  /\ json_loads Fixtures.null_disk "null" = Returns JNull
  /\ truthy JNull = false
  /\ unreadable Fixtures.dead_disk (path Fixtures.null_pack) = true
  /\ fst (load_pack Fixtures.null_disk (path Fixtures.null_pack) []) = Returns JNull
  /\ fst (load_pack Fixtures.dead_disk (path Fixtures.null_pack) [])
     = Returns (JObj [])
  /\ fst (load_pack Fixtures.null_disk (path Fixtures.null_pack) [])
     <> fst (load_pack Fixtures.dead_disk (path Fixtures.null_pack) []).
Proof. repeat split; try reflexivity. vm_compute. discriminate. Qed.

End PackLoader.

(** * Further properties of the script *)

(** ** The filter and its options *)

Section FilterOptions.
Import Py Text Catalog Filters.

Lemma app_cons (c : ascii) (t s : string) : String c t +:+ s = String c (t +:+ s).
Proof. reflexivity. Qed.

Lemma app_assoc_string (a b c : string) : (a +:+ b) +:+ c = a +:+ b +:+ c.
Proof. induction a as [|x a IH]; [reflexivity|]. now rewrite !app_cons, IH. Qed.

Lemma length_app_string (a b : string) :
  String.length (a +:+ b) = (String.length a + String.length b)%nat.
Proof.
  induction a as [|x a IH]; [reflexivity|].
  rewrite app_cons. cbn [String.length]. now rewrite IH.
Qed.

(** A quoted value followed by more text, seen from its opening quote. *)
Lemma sql_quote_then (b rest : string) :
  sql_quote b +:+ rest = String quote (double_quotes b +:+ String quote rest).
Proof.
  rewrite sql_quote_shape, app_cons, app_assoc_string. reflexivity.
Qed.

Lemma literal_list_join (brand_sel : list string) :
  forall fuel : nat,
    brand_sel <> [] ->
    (List.length brand_sel <= fuel)%nat ->
    literal_list fuel (join "," (map sql_quote brand_sel)) = Some brand_sel.
Proof.
  induction brand_sel as [|b bs IH]; intros fuel Hne Hfuel; [contradiction|].
  destruct fuel as [|fuel]; [cbn in Hfuel; lia|].
  destruct bs as [|b' bs'].
  - change (join "," (map sql_quote [b])) with (sql_quote b).
    rewrite sql_quote_shape. cbn [literal_list].
    rewrite Ascii.eqb_refl, literal_body_double_quotes by reflexivity.
    reflexivity.
  - change (join "," (map sql_quote (b :: b' :: bs')))
      with (sql_quote b +:+ "," +:+ join "," (map sql_quote (b' :: bs'))).
    rewrite sql_quote_then. cbn [literal_list].
    rewrite Ascii.eqb_refl.
    rewrite literal_body_double_quotes by reflexivity.
    rewrite app_cons. cbn [Ascii.eqb Bool.eqb].
    change ("" +:+ join "," (map sql_quote (b' :: bs')))
      with (join "," (map sql_quote (b' :: bs'))).
    rewrite IH; [reflexivity|discriminate|cbn in *; lia].
Qed.

Lemma length_join_quoted (brand_sel : list string) :
  (List.length brand_sel <= String.length (join "," (map sql_quote brand_sel)))%nat.
Proof.
  induction brand_sel as [|b bs IH]; [cbn; lia|].
  destruct bs as [|b' bs'].
  - change (join "," (map sql_quote [b])) with (sql_quote b).
    rewrite sql_quote_shape. cbn. lia.
  - change (join "," (map sql_quote (b :: b' :: bs')))
      with (sql_quote b +:+ "," +:+ join "," (map sql_quote (b' :: bs'))).
    rewrite sql_quote_then. cbn [String.length].
    rewrite length_app_string. cbn [String.length].
    rewrite app_cons. cbn [String.length List.length] in *.
    change ("" +:+ join "," (map sql_quote (b' :: bs')))
      with (join "," (map sql_quote (b' :: bs'))).
    lia.
Qed.

(** X1. The text the script puts between the parentheses of
    [brand IN (...)] reads back, by the literal rule of the query language,
    as exactly the selected brands in their order: commas and quotes inside
    a brand neither split nor end an entry. *)
Theorem brand_list_round_trip (brand_sel : list string) :
  brand_sel <> [] ->
  parse_in_list (join "," (map sql_quote brand_sel)) = Some brand_sel.
Proof.
  intros Hne. unfold parse_in_list.
  apply literal_list_join; [exact Hne|apply length_join_quoted].
Qed.

(** The statement above for three brands with a comma, an apostrophe and a
    quoted comma in them. *)
Lemma brand_list_round_trip_witness :
  ["a,b"; "o'neil"; "','"] <> []
  /\ parse_in_list (join "," (map sql_quote ["a,b"; "o'neil"; "','"]))
     = Some ["a,b"; "o'neil"; "','"].
Proof.
  assert (["a,b"; "o'neil"; "','"] <> @nil string) as H by discriminate.
  split; [exact H|].
  apply (brand_list_round_trip ["a,b"; "o'neil"; "','"] H).
Defined.

Lemma where_holds_iff (brand_sel : list string) (min_disc min_rating : Z)
  (p : product) :
  where_holds brand_sel min_disc min_rating p = true
  <-> (brand_sel = [] \/ brand p ∈ brand_sel)
      /\ ((min_disc <= 0)%Z \/ (inject_Z min_disc <= discount_percent p)%Q)
      /\ ((min_rating <= 0)%Z \/ (min_rating # 10 <= rating p)%Q).
Proof.
  unfold where_holds, where_clauses.
  rewrite !forallb_app, !andb_true_iff.
  assert (forallb (fun c => clause_holds c p) [CTrue] = true) as -> by reflexivity.
  assert (forallb (fun c => clause_holds c p)
            match brand_sel with [] => [] | _ :: _ => [CBrandIn brand_sel] end = true
          <-> brand_sel = [] \/ brand p ∈ brand_sel) as ->.
  { destruct brand_sel as [|b bs]; [cbn; intuition|].
    cbn [forallb clause_holds]. rewrite andb_true_r, existsb_exists. split.
    - intros (x & Hin & Heq). right. apply String.eqb_eq in Heq. subst x.
      now apply list_elem_of_In.
    - intros [H|H]; [discriminate|]. exists (brand p).
      split; [now apply list_elem_of_In|apply String.eqb_refl]. }
  assert (forallb (fun c => clause_holds c p)
            (if (0 <? min_disc)%Z then [CDiscGe min_disc] else []) = true
          <-> (min_disc <= 0)%Z \/ (inject_Z min_disc <= discount_percent p)%Q) as ->.
  { destruct (Z.ltb_spec 0 min_disc); cbn [forallb clause_holds].
    - rewrite andb_true_r, Qle_bool_iff. intuition lia.
    - intuition. }
  assert (forallb (fun c => clause_holds c p)
            (if (0 <? min_rating)%Z then [CRatingGe min_rating] else []) = true
          <-> (min_rating <= 0)%Z \/ (min_rating # 10 <= rating p)%Q) as ->.
  { destruct (Z.ltb_spec 0 min_rating); cbn [forallb clause_holds].
    - rewrite andb_true_r, Qle_bool_iff. intuition lia.
    - intuition. }
  intuition.
Qed.

(** X2. A row passes the filter exactly when its brand is among the
    selected ones or no brand is selected, its discount reaches the minimum
    discount or that slider stands at zero, and its rating reaches the
    minimum rating or that slider stands at zero.  With nothing selected
    and both sliders at zero every row of every table passes. *)
Theorem where_predicate_meaning (brand_sel : list string)
  (min_disc min_rating : Z) (p : product) (table : list product) :
  (where_holds brand_sel min_disc min_rating p = true
   <-> (brand_sel = [] \/ brand p ∈ brand_sel)
       /\ ((min_disc <= 0)%Z \/ (inject_Z min_disc <= discount_percent p)%Q)
       /\ ((min_rating <= 0)%Z \/ (min_rating # 10 <= rating p)%Q))
  /\ matching [] 0 0 table = table.
Proof.
  split; [apply where_holds_iff|].
  unfold matching. induction table as [|x xs IH]; [reflexivity|].
  cbn [List.filter].
  assert (where_holds [] 0 0 x = true) as -> by reflexivity.
  now rewrite IH.
Qed.

(** X3. Moving a slider down never loses a row: every row that passes the
    filter at higher thresholds passes it at lower ones, for the same
    brands, so the rows matched at the higher thresholds are among those
    matched at the lower ones. *)
Theorem lower_threshold_keeps_rows (brand_sel : list string)
  (min_disc min_rating min_disc' min_rating' : Z) (table : list product) :
  (min_disc <= min_disc')%Z ->
  (min_rating <= min_rating')%Z ->
  Forall (fun p => p ∈ matching brand_sel min_disc min_rating table)
    (matching brand_sel min_disc' min_rating' table)
  /\ (List.length (matching brand_sel min_disc' min_rating' table)
      <= List.length (matching brand_sel min_disc min_rating table))%nat.
Proof.
  intros Hd Hr.
  assert (forall p, where_holds brand_sel min_disc' min_rating' p = true ->
                    where_holds brand_sel min_disc min_rating p = true) as Himp.
  { intros p. rewrite !where_holds_iff. intros (Hb & Hdp & Hrp).
    split; [exact Hb|]. split.
    - destruct (Z_le_gt_dec min_disc 0) as [?|Hpos]; [now left|right].
      destruct Hdp as [?|Hdp]; [lia|].
      eapply Qle_trans; [|exact Hdp]. unfold Qle; cbn. lia.
    - destruct (Z_le_gt_dec min_rating 0) as [?|Hpos]; [now left|right].
      destruct Hrp as [?|Hrp]; [lia|].
      eapply Qle_trans; [|exact Hrp]. unfold Qle; cbn. lia. }
  split.
  - apply Forall_forall. intros p Hp. unfold matching in *.
    apply list_elem_of_In, List.filter_In in Hp as [Hin Hp].
    apply list_elem_of_In, List.filter_In. auto.
  - unfold matching. induction table as [|x xs IH]; [cbn; lia|].
    cbn [List.filter].
    destruct (where_holds brand_sel min_disc' min_rating' x) eqn:E.
    + rewrite (Himp x E). cbn [List.length]. lia.
    + destruct (where_holds brand_sel min_disc min_rating x); cbn [List.length]; lia.
Qed.

(** The statement above on the sample shelf, the discount slider moved from
    20 down to 5. *)
Lemma lower_threshold_keeps_rows_witness :
  (5 <= 20)%Z /\ (0 <= 0)%Z
  /\ Forall (fun p => p ∈ matching [] 5 0 Fixtures.shelf)
       (matching [] 20 0 Fixtures.shelf)
  /\ (List.length (matching [] 20 0 Fixtures.shelf)
      <= List.length (matching [] 5 0 Fixtures.shelf))%nat.
Proof.
  assert ((5 <= 20)%Z) as Hd by lia.
  assert ((0 <= 0)%Z) as Hr by lia.
  split; [exact Hd|]. split; [exact Hr|].
  apply (lower_threshold_keeps_rows [] 5 0 20 0 Fixtures.shelf Hd Hr).
Defined.

End FilterOptions.

Section BrandOptions.
Import Py Text Catalog Filters.

Lemma brands_of_cells (l : list string) : brands (map Some l) = l.
Proof.
  assert (omap id (map Some l) = l) as H
      by (induction l as [|x l IH]; [reflexivity|cbn; now rewrite IH]).
  destruct l as [|x l]; [reflexivity|exact H].
Qed.

Lemma brand_offered_iff (table : list product) (b : string) :
  b ∈ brands (brands_rows table) <-> exists p, p ∈ table /\ brand p = b.
Proof.
  unfold brands_rows. rewrite brands_of_cells, merge_sort_Permutation.
  rewrite elem_of_remove_dups. change (map brand table) with (brand <$> table).
  rewrite list_elem_of_fmap. split; intros (p & H1 & H2); exists p; auto.
Qed.

(** X4. The brands offered in the filter are the brands of the table, each
    of them once: a brand is offered exactly when some row carries it, and
    no brand is offered twice. *)
Theorem brand_options_distinct (table : list product) :
  NoDup (brands (brands_rows table))
  /\ forall b, b ∈ brands (brands_rows table) <-> exists p, p ∈ table /\ brand p = b.
Proof.
  split; [|intros b; apply brand_offered_iff].
  unfold brands_rows. rewrite brands_of_cells, merge_sort_Permutation.
  apply NoDup_remove_dups.
Qed.




End BrandOptions.

(** ** The KPI summary *)

Section KpiSummary.
Import Py Text Catalog.

Lemma count_ones (test : product -> bool) (rows : list product) :
  fold_right Z.add 0%Z (map (fun p => if test p then 1%Z else 0%Z) rows)
  = Z.of_nat (List.length (List.filter test rows)).
Proof.
  induction rows as [|p rows IH]; [reflexivity|].
  cbn [map fold_right List.filter]. rewrite IH.
  destruct (test p); cbn [List.length]; lia.
Qed.

(** X7. When at least one row passes the filter the five metrics are
    drawn: Products is the number of passing rows and No-discount Items
    the number of those whose price equals the list price, which is never
    more than Products. *)
Theorem kpis_count_matching_rows
  (brand_sel : list string) (min_disc min_rating : Z) (table : list product) :
  matching brand_sel min_disc min_rating table <> [] ->
  exists avg_p avg_m avg_d : cell,
    kpi_section brand_sel min_disc min_rating table
    = Returns
        [ Metric "Products"
            (Int (Z.of_nat (List.length (matching brand_sel min_disc min_rating table))));
          Metric "Avg Price" avg_p;
          Metric "Avg MRP" avg_m;
          Metric "Avg Discount %" avg_d;
          Metric "No-discount Items"
            (Int (Z.of_nat
                    (List.length
                       (List.filter (fun p => Qeq_bool (price p) (mrp p))
                          (matching brand_sel min_disc min_rating table))))) ]
    /\ (List.length
          (List.filter (fun p => Qeq_bool (price p) (mrp p))
             (matching brand_sel min_disc min_rating table))
        <= List.length (matching brand_sel min_disc min_rating table))%nat.
Proof.
  intros Hne. unfold kpi_section, kpis_rows.
  destruct (matching brand_sel min_disc min_rating table) as [|p rows] eqn:E;
    [contradiction|].
  pose proof (count_ones (fun p => Qeq_bool (price p) (mrp p)) (p :: rows)) as Hsum.
  cbn [kpis]. unfold kpi_metrics.
  cbn [products no_discount_items COUNT SUM int map] in *.
  do 3 eexists. split.
  - cbn [mbind outcome_bind bind int mret outcome_ret avg_price avg_mrp
         avg_discount_pct].
    rewrite Hsum. reflexivity.
  - apply List.filter_length_le.
Qed.

(** The statement above on the sample shelf without any filter. *)
Lemma kpis_count_matching_rows_witness :
  matching [] 0 0 Fixtures.shelf <> []
  /\ exists avg_p avg_m avg_d : cell,
      kpi_section [] 0 0 Fixtures.shelf
      = Returns
          [ Metric "Products"
              (Int (Z.of_nat (List.length (matching [] 0 0 Fixtures.shelf))));
            Metric "Avg Price" avg_p;
            Metric "Avg MRP" avg_m;
            Metric "Avg Discount %" avg_d;
            Metric "No-discount Items"
              (Int (Z.of_nat
                      (List.length
                         (List.filter (fun p => Qeq_bool (price p) (mrp p))
                            (matching [] 0 0 Fixtures.shelf))))) ]
      /\ (List.length
            (List.filter (fun p => Qeq_bool (price p) (mrp p))
               (matching [] 0 0 Fixtures.shelf))
          <= List.length (matching [] 0 0 Fixtures.shelf))%nat.
Proof.
  assert (matching [] 0 0 Fixtures.shelf <> []) as H by discriminate.
  split; [exact H|].
  apply (kpis_count_matching_rows [] 0 0 Fixtures.shelf H).
Defined.

(** X8. Drawing the metrics fails exactly when the count or the
    no-discount sum of the summary is missing, and then with [TypeError];
    missing averages are passed on to the metric as they are. *)
Theorem kpi_metrics_raises_iff (k : kpi_row) :
  ((exists e, kpi_metrics k = Raises e)
   <-> products k = Null \/ no_discount_items k = Null)
  /\ (forall e, kpi_metrics k = Raises e -> e = TypeError)
  /\ (products k <> Null -> no_discount_items k <> Null ->
      exists n m,
        kpi_metrics k
        = Returns [ Metric "Products" (Int n);
                    Metric "Avg Price" (avg_price k);
                    Metric "Avg MRP" (avg_mrp k);
                    Metric "Avg Discount %" (avg_discount_pct k);
                    Metric "No-discount Items" (Int m) ]).
Proof.
  unfold kpi_metrics.
  destruct (products k) as [|n|x], (no_discount_items k) as [|m|y];
    cbn [mbind outcome_bind bind int mret outcome_ret];
    (split; [split; [intros [e He]; first [discriminate | auto]
                    |intros [H|H]; first [discriminate | eauto]]|]);
    (split; [intros e He; first [discriminate | congruence]|]);
    intros H1 H2; first [contradiction | eauto].
Qed.

End KpiSummary.

(** ** Band and bucket distributions *)

Section Frames.
Import Py Text Catalog Distributions.

Lemma sum_pointwise {A} (f g : A -> nat) (l : list A) :
  sum_list_with (fun x => f x + g x)%nat l
  = (sum_list_with f l + sum_list_with g l)%nat.
Proof. induction l as [|x l IH]; cbn; [reflexivity|rewrite IH; lia]. Qed.

Lemma sum_indicator (x : string) (ks : list string) :
  NoDup ks ->
  sum_list_with (fun k => if String.eqb x k then 1 else 0)%nat ks
  = if bool_decide (x ∈ ks) then 1%nat else 0%nat.
Proof.
  induction 1 as [|k ks Hk _ IH]; [reflexivity|].
  cbn [sum_list_with]. rewrite IH.
  destruct (String.eqb_spec x k) as [->|Hne].
  - rewrite (bool_decide_eq_true_2 (k ∈ k :: ks)) by apply list_elem_of_here.
    rewrite bool_decide_eq_false_2 by exact Hk. reflexivity.
  - destruct (decide (x ∈ ks)) as [Hin|Hout].
    + rewrite !bool_decide_eq_true_2; [reflexivity| |exact Hin].
      now apply list_elem_of_further.
    + rewrite !bool_decide_eq_false_2; [reflexivity| |exact Hout].
      intros [?|?]%elem_of_cons; contradiction.
Qed.

Lemma sum_ext {A} (f g : A -> nat) (l : list A) :
  (forall x, f x = g x) -> sum_list_with f l = sum_list_with g l.
Proof.
  intros H. induction l as [|x l IH]; cbn; [reflexivity|]. now rewrite H, IH.
Qed.

(** Every row is counted in exactly one group. *)
Lemma sum_group_sizes (key : product -> string) (rows : list product)
  (ks : list string) :
  NoDup ks ->
  Forall (fun p => key p ∈ ks) rows ->
  sum_list_with
    (fun k => List.length (List.filter (fun p => String.eqb (key p) k) rows)) ks
  = List.length rows.
Proof.
  intros Hnd Hall. induction Hall as [|p rows Hp _ IH].
  - cbn [List.filter List.length]. induction ks as [|k ks IHk]; [reflexivity|].
    cbn. apply IHk. now apply NoDup_cons_1_2 in Hnd.
  - rewrite (sum_ext _
               (fun k => (if String.eqb (key p) k then 1 else 0)
                         + List.length (List.filter (fun q => String.eqb (key q) k) rows))%nat).
    + rewrite sum_pointwise, IH, (sum_indicator _ _ Hnd).
      rewrite bool_decide_eq_true_2 by exact Hp. reflexivity.
    + intros k. cbn [List.filter].
      destruct (String.eqb (key p) k); reflexivity.
Qed.

Variables (R : Type) (mk : string * list product -> R).
Variables (items : R -> nat) (label : R -> string).
Hypothesis Hitems : forall g, items (mk g) = List.length (snd g).
Hypothesis Hlabel : forall g, label (mk g) = fst g.

Variables (key : product -> string) (rows : list product).

(** The frame of a grouped count, in [ORDER BY items DESC]. *)
Local Abbreviation frame := (items_desc items (map mk (group_by key rows))).

Lemma frame_perm : frame ≡ₚ map mk (group_by key rows).
Proof. apply merge_sort_Permutation. Qed.

Lemma frame_sum : sum_list_with items frame = List.length rows.
Proof.
  rewrite frame_perm. unfold group_by.
  rewrite <- (sum_group_sizes key rows (remove_dups (map key rows))).
  - induction (remove_dups (map key rows)) as [|k ks IH]; [reflexivity|].
    cbn [map sum_list_with]. now rewrite IH, Hitems.
  - apply NoDup_remove_dups.
  - apply Forall_forall. intros p Hp. apply elem_of_remove_dups.
    change (map key rows) with (key <$> rows). now apply list_elem_of_fmap_2.
Qed.


(** Every row of the frame stands for a key that occurs, with the rows of
    that key, of which there is at least one. *)
Lemma frame_rows :
  Forall (fun r => exists k p,
              p ∈ rows /\ key p = k
              /\ r = mk (k, List.filter (fun q => String.eqb (key q) k) rows)
              /\ (1 <= items r)%nat)
    frame.
Proof.
  apply Forall_forall. intros r Hr. rewrite frame_perm in Hr.
  unfold group_by in Hr.
  apply list_elem_of_In, List.in_map_iff in Hr as (g & <- & Hg).
  apply List.in_map_iff in Hg as (k & <- & Hk).
  rewrite <- list_elem_of_In, elem_of_remove_dups, list_elem_of_In in Hk.
  apply List.in_map_iff in Hk as (p & <- & Hp).
  exists (key p), p. split; [now apply list_elem_of_In|].
  split; [reflexivity|]. split; [reflexivity|].
  rewrite Hitems. cbn [snd].
  assert (In p (List.filter (fun q => String.eqb (key q) (key p)) rows)) as Hin
      by (apply List.filter_In; split; [exact Hp|apply String.eqb_refl]).
  destruct (List.filter _ rows); [destruct Hin|cbn; lia].
Qed.

Lemma frame_labels_distinct : NoDup (map label frame).
Proof.
  assert (map label frame ≡ₚ map label (map mk (group_by key rows))) as ->
      by (apply Permutation_map, frame_perm).
  unfold group_by.
  assert (forall ks : list string,
             map label
               (map mk (map (fun k => (k, List.filter (fun p => String.eqb (key p) k) rows)) ks))
             = ks) as ->.
  { induction ks as [|k ks IH]; [reflexivity|].
    cbn [map]. now rewrite IH, Hlabel. }
  apply NoDup_remove_dups.
Qed.

Lemma frame_sorted :
  StronglySorted (fun a b => (items b <= items a)%nat) frame.
Proof.
  set (R' := fun a b : R => Is_true (items b <=? items a)%nat).
  assert (Total R') as Htot.
  { intros a b. unfold R'. rewrite !Is_true_true, !Nat.leb_le. lia. }
  assert (Transitive R') as Htr.
  { intros a b c. unfold R'. rewrite !Is_true_true, !Nat.leb_le. lia. }
  pose proof (StronglySorted_merge_sort R' (map mk (group_by key rows))) as H.
  change (merge_sort R' (map mk (group_by key rows))) with frame in H.
  induction H as [|a l _ IH Hall]; constructor; [exact IH|].
  eapply Forall_impl; [exact Hall|].
  intros b. unfold R'. now rewrite Is_true_true, Nat.leb_le.
Qed.

End Frames.

Section Distribution.
Import Py Text Catalog Distributions.

Lemma discount_band_label (d : Q) : discount_band d ∈ band_labels.
Proof.
  unfold discount_band, band_labels.
  repeat match goal with |- context [if ?b then _ else _] => destruct b end;
    rewrite !elem_of_cons; auto 10.
Qed.

Lemma price_bucket_label (p : Q) : price_bucket p ∈ bucket_labels.
Proof.
  unfold price_bucket, bucket_labels.
  repeat match goal with |- context [if ?b then _ else _] => destruct b end;
    rewrite !elem_of_cons; auto 10.
Qed.

Lemma distinct_labels_at_most (labels known : list string) :
  NoDup labels -> Forall (fun l => l ∈ known) labels ->
  (List.length labels <= List.length known)%nat.
Proof.
  intros Hnd Hall. apply submseteq_length, NoDup_submseteq; [exact Hnd|].
  now apply Forall_forall.
Qed.

(** X9. Each row that passes the filter is counted in exactly one discount
    band and in exactly one price bucket: the item counts of either frame
    add up to the number of passing rows. *)
Theorem distributions_count_every_row
  (brand_sel : list string) (min_disc min_rating : Z) (table : list product) :
  sum_list_with band_items (bands brand_sel min_disc min_rating table)
  = List.length (matching brand_sel min_disc min_rating table)
  /\ sum_list_with bucket_items (price_buckets brand_sel min_disc min_rating table)
     = List.length (matching brand_sel min_disc min_rating table).
Proof.
  split; unfold bands, price_buckets; apply frame_sum; reflexivity.
Qed.


(** X11. The discount-band frame has one row per band that occurs: its
    labels are among the five band labels and pairwise distinct, so it has
    at most five rows, and every row counts at least one item.  The same
    holds for the price-bucket frame. *)
Theorem distribution_rows
  (brand_sel : list string) (min_disc min_rating : Z) (table : list product) :
  (NoDup (map band (bands brand_sel min_disc min_rating table))
   /\ Forall (fun r => band r ∈ band_labels /\ (1 <= band_items r)%nat)
        (bands brand_sel min_disc min_rating table)
   /\ (List.length (bands brand_sel min_disc min_rating table) <= 5)%nat)
  /\ (NoDup (map price_bucket_of (price_buckets brand_sel min_disc min_rating table))
      /\ Forall (fun r => price_bucket_of r ∈ bucket_labels
                          /\ (1 <= bucket_items r)%nat)
           (price_buckets brand_sel min_disc min_rating table)
      /\ (List.length (price_buckets brand_sel min_disc min_rating table) <= 5)%nat).
Proof.
  split.
  - assert (NoDup (map band (bands brand_sel min_disc min_rating table))) as Hnd
        by (unfold bands; apply frame_labels_distinct; reflexivity).
    assert (Forall (fun r => band r ∈ band_labels /\ (1 <= band_items r)%nat)
              (bands brand_sel min_disc min_rating table)) as Hall.
    { unfold bands. eapply Forall_impl; [apply frame_rows; reflexivity|].
      intros r (k & p & _ & <- & -> & Hn). split; [|exact Hn].
      apply discount_band_label. }
    split; [exact Hnd|]. split; [exact Hall|].
    rewrite <- (List.length_map band).
    apply (distinct_labels_at_most _ band_labels Hnd).
    apply Forall_forall. intros l Hl.
    apply list_elem_of_In, List.in_map_iff in Hl as (r & <- & Hr).
    rewrite Forall_forall in Hall. apply Hall. now apply list_elem_of_In.
  - assert (NoDup (map price_bucket_of
                     (price_buckets brand_sel min_disc min_rating table))) as Hnd
        by (unfold price_buckets; apply frame_labels_distinct; reflexivity).
    assert (Forall (fun r => price_bucket_of r ∈ bucket_labels
                             /\ (1 <= bucket_items r)%nat)
              (price_buckets brand_sel min_disc min_rating table)) as Hall.
    { unfold price_buckets. eapply Forall_impl; [apply frame_rows; reflexivity|].
      intros r (k & p & _ & <- & -> & Hn). split; [|exact Hn].
      apply price_bucket_label. }
    split; [exact Hnd|]. split; [exact Hall|].
    rewrite <- (List.length_map price_bucket_of).
    apply (distinct_labels_at_most _ bucket_labels Hnd).
    apply Forall_forall. intros l Hl.
    apply list_elem_of_In, List.in_map_iff in Hl as (r & <- & Hr).
    rewrite Forall_forall in Hall. apply Hall. now apply list_elem_of_In.
Qed.

(** X12. Both frames come in descending order of their item counts: no row
    has more items than a row before it. *)
Theorem distributions_sorted
  (brand_sel : list string) (min_disc min_rating : Z) (table : list product) :
  StronglySorted (fun a b => (band_items b <= band_items a)%nat)
    (bands brand_sel min_disc min_rating table)
  /\ StronglySorted (fun a b => (bucket_items b <= bucket_items a)%nat)
       (price_buckets brand_sel min_disc min_rating table).
Proof. split; unfold bands, price_buckets; apply frame_sorted. Qed.

End Distribution.

(** ** More on the query cache *)

Section CacheMore.
Import Py Text QueryCache.

(** X13. The cache is keyed by the exact statement text: a call for one
    text, whatever its outcome, changes nothing about what is cached for
    any other text, at any time. *)
Theorem other_texts_untouched
  (gw : gateway) (t : Z) (sql other : string) (st : state) :
  sql <> other ->
  forall t', cached t' other (snd (q gw t sql st)) = cached t' other st.
Proof.
  intros Hne t'. unfold q.
  destruct (cached t sql st) as [df|]; [reflexivity|].
  destruct (q_body _) as [df|e]; cbn [snd]; [|reflexivity].
  unfold cached. cbn [cache]. now rewrite lookup_insert_ne.
Qed.

(** The statement above for two statements that differ in one space. *)
Lemma other_texts_untouched_witness :
  "SELECT 1" <> "SELECT  1"
  /\ forall t',
      cached t' "SELECT  1"
        (snd (q Samples.counting_gateway 0 "SELECT 1" empty_state))
      = cached t' "SELECT  1" empty_state.
Proof.
  assert ("SELECT 1" <> "SELECT  1") as H by discriminate.
  split; [exact H|].
  apply (other_texts_untouched Samples.counting_gateway 0 "SELECT 1" "SELECT  1"
           empty_state H).
Defined.

(** X14. Failures are never cached: while the gateway answers a statement
    with the structured error, every call for it, at whatever time, runs
    the gateway again, and the cache stays as it was. *)
Theorem errors_not_cached
  (gw : gateway) (sql : string) (times : list Z) (st : state) :
  (forall n, exists message, gw sql n = GwError message) ->
  cache st !! sql = None ->
  cache (run gw (map (fun t => (t, sql)) times) st) = cache st
  /\ calls_of sql (run gw (map (fun t => (t, sql)) times) st)
     = (calls_of sql st + List.length times)%nat.
Proof.
  intros Hdown. revert st.
  induction times as [|t times IH]; intros st Hnone; [cbn; split; [reflexivity|lia]|].
  cbn [map run fold_left fst snd].
  assert (q gw t sql st
          = (Raises (RuntimeError
                       (match gw sql (List.length (gateway_calls st)) with
                        | GwError message => message
                        | _ => ""
                        end)),
             {| cache := cache st; gateway_calls := gateway_calls st ++ [sql] |}))
    as Hq.
  { rewrite q_miss by (unfold cached; now rewrite Hnone).
    destruct (Hdown (List.length (gateway_calls st))) as [message ->].
    reflexivity. }
  rewrite Hq. cbn [snd].
  destruct (IH {| cache := cache st; gateway_calls := gateway_calls st ++ [sql] |})
    as [Hc Hn]; [exact Hnone|].
  unfold run in Hc, Hn. rewrite Hc, Hn. cbn [cache].
  split; [reflexivity|].
  destruct st as [c calls]. cbn [cache gateway_calls].
  rewrite (calls_of_snoc sql c c calls). cbn [List.length]. lia.
Qed.

(** The statement above for three calls to the gateway that is down. *)
Lemma errors_not_cached_witness :
  (forall n, exists message, Samples.failing_gateway "SELECT 1" n = GwError message)
  /\ cache empty_state !! "SELECT 1" = None
  /\ cache (run Samples.failing_gateway
              (map (fun t => (t, "SELECT 1")) [0%Z; 1%Z; 2%Z]) empty_state)
     = cache empty_state
  /\ calls_of "SELECT 1"
       (run Samples.failing_gateway
          (map (fun t => (t, "SELECT 1")) [0%Z; 1%Z; 2%Z]) empty_state)
     = (calls_of "SELECT 1" empty_state + List.length [0%Z; 1%Z; 2%Z])%nat.
Proof.
  assert (forall n : nat,
             exists message, Samples.failing_gateway "SELECT 1" n = GwError message)
    as H1 by (intros n; eexists; reflexivity).
  assert (cache empty_state !! "SELECT 1" = None) as H2 by reflexivity.
  split; [exact H1|]. split; [exact H2|].
  apply (errors_not_cached Samples.failing_gateway "SELECT 1" [0%Z; 1%Z; 2%Z]
           empty_state H1 H2).
Defined.

(** What reaches the gateway is what [q] was called with. *)
Lemma run_log_invariant (P : string -> Prop) (gw : gateway)
  (calls : list (Z * string)) (st : state) :
  Forall P (gateway_calls st) ->
  Forall (fun c => P (snd c)) calls ->
  Forall P (gateway_calls (run gw calls st)).
Proof.
  intros Hst Hcalls. revert st Hst.
  induction Hcalls as [|c calls Hc _ IH]; intros st Hst; [exact Hst|].
  cbn [run fold_left]. apply IH. unfold q.
  destruct (cached (fst c) (snd c) st); [exact Hst|].
  destruct (q_body _); cbn [snd gateway_calls];
    (apply Forall_app; split; [exact Hst|]);
    (apply List.Forall_cons; [exact Hc|apply List.Forall_nil]).
Qed.

Lemma issued_query_single_select
  (brand_sel : list string) (min_disc min_rating : Z) (sql : string) :
  sql ∈ issued_queries brand_sel min_disc min_rating ->
  single_select sql = true.
Proof.
  unfold issued_queries. cbv zeta.
  pose proof (where_sql_tame brand_sel min_disc min_rating) as Hw.
  revert Hw.
  generalize (where_sql brand_sel min_disc min_rating) as w.
  generalize (where_sql (blank brand_sel) min_disc min_rating) as w'.
  intros w' w Hw Hin.
  pose proof (tame_queries w w' Hw) as Ht.
  pose proof (first_keyword_queries w) as Hk.
  assert (Forall (fun s => single_select s = true)
            [brands_sql; kpis_sql w; bands_sql w; price_buckets_sql w;
             top_discounted_sql w; top_rated_sql w]) as Hall.
  { clear Hin.
    repeat match goal with
           | H : Forall2 _ (_ :: _) (_ :: _) |- _ =>
               apply Forall2_cons_1 in H as [? H]
           | H : Forall _ (_ :: _) |- _ =>
               apply Forall_cons_1 in H as [? H]
           end.
    repeat (apply List.Forall_cons || apply List.Forall_nil); unfold single_select;
      match goal with
      | Hk' : first_keyword ?s = _, Ht' : tame ?s _ |- context [first_keyword ?s] =>
          rewrite Hk'; destruct Ht' as (-> & _ & _ & ->); reflexivity
      end. }
  rewrite Forall_forall in Hall. now apply Hall.
Qed.

(** X15. The gateway only ever sees single SELECT statements: if that holds
    of its log so far, it still holds after any run of calls whose texts
    are statements of the script, for whatever filters they were built,
    whatever the gateway answers and whatever is cached. *)
Theorem gateway_sees_only_selects
  (gw : gateway) (calls : list (Z * string)) (st : state) :
  Forall (fun sql => single_select sql = true) (gateway_calls st) ->
  Forall (fun c => exists brand_sel min_disc min_rating,
              snd c ∈ issued_queries brand_sel min_disc min_rating) calls ->
  Forall (fun sql => single_select sql = true) (gateway_calls (run gw calls st)).
Proof.
  intros Hst Hcalls. apply run_log_invariant; [exact Hst|].
  eapply Forall_impl; [exact Hcalls|].
  intros c (bs & d & r & Hin). eapply issued_query_single_select, Hin.
Qed.

(** The statement above for one pass of the script with a brand that has an
    apostrophe and a semicolon in it. *)
Lemma gateway_sees_only_selects_witness :
  Forall (fun sql => single_select sql = true) (gateway_calls empty_state)
  /\ Forall (fun c => exists brand_sel min_disc min_rating,
                snd c ∈ issued_queries brand_sel min_disc min_rating)
       (map (pair 0%Z) (issued_queries ["x'; DROP TABLE t"] 10 45))
  /\ Forall (fun sql => single_select sql = true)
       (gateway_calls
          (run Samples.counting_gateway
             (map (pair 0%Z) (issued_queries ["x'; DROP TABLE t"] 10 45))
             empty_state)).
Proof.
  assert (Forall (fun sql => single_select sql = true) (gateway_calls empty_state))
    as H1 by apply List.Forall_nil.
  assert (Forall (fun c : Z * string =>
                    exists brand_sel min_disc min_rating,
                      snd c ∈ issued_queries brand_sel min_disc min_rating)
            (map (pair 0%Z) (issued_queries ["x'; DROP TABLE t"] 10 45))) as H2.
  { apply Forall_forall. intros c Hc.
    apply list_elem_of_In, List.in_map_iff in Hc as (s & <- & Hs).
    exists ["x'; DROP TABLE t"], 10%Z, 45%Z. now apply list_elem_of_In. }
  split; [exact H1|]. split; [exact H2|].
  apply (gateway_sees_only_selects Samples.counting_gateway _ empty_state H1 H2).
Defined.

End CacheMore.

(** ** More on the ranked tables *)

Section RankedMore.
Import Py Text Catalog.

(** X16. While at most 50 rows pass the filter nothing is cut off: the
    top-discounted table holds exactly the passing rows, and the top-rated
    table exactly the passing rows with rating_total >= 100 and
    rating >= 4, each row as often as it occurs. *)
Theorem short_tables_are_complete
  (brand_sel : list string) (min_disc min_rating : Z) (table : list product) :
  (List.length (matching brand_sel min_disc min_rating table) <= 50)%nat ->
  top_discounted brand_sel min_disc min_rating table
    ≡ₚ matching brand_sel min_disc min_rating table
  /\ top_rated brand_sel min_disc min_rating table
       ≡ₚ List.filter well_rated (matching brand_sel min_disc min_rating table).
Proof.
  intros Hlen. unfold top_discounted, top_rated, order_by, LIMIT.
  split.
  - rewrite take_ge; [apply merge_sort_Permutation|].
    now rewrite merge_sort_Permutation.
  - rewrite take_ge; [apply merge_sort_Permutation|].
    rewrite merge_sort_Permutation.
    etransitivity; [apply List.filter_length_le|exact Hlen].
Qed.

(** The statement above on the sample shelf. *)
Lemma short_tables_are_complete_witness :
  (List.length (matching [] 0 0 Fixtures.shelf) <= 50)%nat
  /\ top_discounted [] 0 0 Fixtures.shelf ≡ₚ matching [] 0 0 Fixtures.shelf
  /\ top_rated [] 0 0 Fixtures.shelf
       ≡ₚ List.filter well_rated (matching [] 0 0 Fixtures.shelf).
Proof.
  assert ((List.length (matching [] 0 0 Fixtures.shelf) <= 50)%nat) as H
      by (vm_compute; lia).
  split; [exact H|].
  apply (short_tables_are_complete [] 0 0 Fixtures.shelf H).
Defined.

End RankedMore.

(** ** More on the pack loader and viewer *)

Section PackMemo.
Import Py Packs.

Lemma memo_get_head (path_str : string) (v : json) (m : memo) :
  memo_get path_str ((path_str, v) :: m) = Some v.
Proof. cbn. now rewrite String.eqb_refl. Qed.

(** X17. A pack is read once: after a load of a path, loading the same
    path again gives the same value, whatever has become of the file in
    the meantime. *)
Theorem load_pack_reads_once (w w' : env) (path_str : string) (m : memo) :
  fst (load_pack w' path_str (snd (load_pack w path_str m)))
  = fst (load_pack w path_str m).
Proof.
  unfold load_pack at 2 3.
  destruct (memo_get path_str m) as [v|] eqn:Hm; cbn [fst snd].
  - unfold load_pack. now rewrite memo_get_head.
  - rewrite load_pack_body_total. cbn [fst snd].
    unfold load_pack, maxsize. cbn [take]. now rewrite memo_get_head.
Qed.

Lemma memo_drop_keys (path_str : string) (m : memo) :
  NoDup (map fst m) ->
  NoDup (map fst (memo_drop path_str m))
  /\ ~ In path_str (map fst (memo_drop path_str m))
  /\ (List.length (memo_drop path_str m) <= List.length m)%nat.
Proof.
  induction m as [|[k v] m IH]; intros Hnd.
  - cbn. repeat split; [constructor|tauto|lia].
  - cbn [map fst] in Hnd. apply NoDup_cons in Hnd as [Hk Hnd].
    destruct (IH Hnd) as (IH1 & IH2 & IH3).
    assert (forall x, In x (map fst (memo_drop path_str m)) -> In x (map fst m))
      as Hsub.
    { intros x Hx. apply List.in_map_iff in Hx as (kv & <- & Hkv).
      apply List.filter_In in Hkv as [Hkv _].
      apply List.in_map_iff. eauto. }
    unfold memo_drop in *. cbn [List.filter fst].
    destruct (String.eqb_spec k path_str) as [->|Hne]; cbn [negb].
    + repeat split; [exact IH1|exact IH2|cbn [List.length]; lia].
    + cbn [map fst List.length]. repeat split.
      * apply NoDup_cons. split; [|exact IH1].
        rewrite list_elem_of_In. intros Hin. apply Hk, list_elem_of_In, Hsub, Hin.
      * intros [Heq|Hin]; [congruence|contradiction].
      * lia.
Qed.

Lemma memo_get_Some_shrinks (path_str : string) (v : json) (m : memo) :
  memo_get path_str m = Some v ->
  (List.length (memo_drop path_str m) < List.length m)%nat.
Proof.
  induction m as [|[k x] m IH]; [discriminate|].
  unfold memo_drop in *. cbn [memo_get List.filter fst].
  destruct (String.eqb k path_str); cbn [negb List.length].
  - intros _. apply Nat.lt_succ_r, List.filter_length_le.
  - intros H. specialize (IH H). lia.
Qed.

Lemma memo_get_None_fresh (path_str : string) (m : memo) :
  memo_get path_str m = None -> ~ In path_str (map fst m).
Proof.
  induction m as [|[k x] m IH]; [intros _ []|].
  cbn [memo_get map fst].
  destruct (String.eqb_spec k path_str) as [->|Hne]; [discriminate|].
  intros H [Heq|Hin]; [congruence|now apply IH].
Qed.

Lemma load_pack_keeps_memo (w : env) (path_str : string) (m : memo) :
  (List.length m <= maxsize)%nat ->
  NoDup (map fst m) ->
  (List.length (snd (load_pack w path_str m)) <= maxsize)%nat
  /\ NoDup (map fst (snd (load_pack w path_str m))).
Proof.
  intros Hlen Hnd. unfold load_pack.
  destruct (memo_get path_str m) as [v|] eqn:Hm; cbn [snd].
  - destruct (memo_drop_keys path_str m Hnd) as (H1 & H2 & _).
    pose proof (memo_get_Some_shrinks _ _ _ Hm).
    split; [cbn [List.length]; lia|].
    cbn [map fst]. apply NoDup_cons. split; [|exact H1].
    now rewrite list_elem_of_In.
  - rewrite load_pack_body_total. cbn [snd]. split.
    + rewrite length_take. lia.
    + change (map fst (take maxsize ((path_str, ?x) :: m)))
        with (fst <$> take maxsize ((path_str, x) :: m)).
      rewrite fmap_take. eapply sublist_NoDup; [|apply sublist_take].
      cbn [fmap list_fmap fst]. apply NoDup_cons. split; [|exact Hnd].
      rewrite list_elem_of_In. now apply memo_get_None_fresh.
Qed.

Lemma prepend_memo (here : list (nat * ui))
  (later : outcome (list (nat * ui)) * memo) :
  snd (prepend here later) = snd later.
Proof. now destruct later as [[evs|e] m]. Qed.

Lemma view_from_keeps_memo (w : env) (ncols : nat) (files : list pack_file) :
  forall (i : nat) (m : memo),
    (List.length m <= maxsize)%nat ->
    NoDup (map fst m) ->
    (List.length (snd (view_from w ncols i files m)) <= maxsize)%nat
    /\ NoDup (map fst (snd (view_from w ncols i files m))).
Proof.
  induction files as [|f rest IH]; intros i m Hlen Hnd;
    [split; [exact Hlen|exact Hnd]|].
  cbn [view_from].
  destruct (load_pack_keeps_memo w (path f) m Hlen Hnd) as [Hlen' Hnd'].
  destruct (load_pack w (path f) m) as [[pack|e] m']; cbn [snd] in *; [|auto].
  destruct (show_pack w pack) as [shown|e]; cbn [snd]; [|auto].
  rewrite prepend_memo. now apply IH.
Qed.

(** X18. The memo table stays within its bound and holds every path at
    most once: if it has at most 256 entries with distinct paths before a
    load, or before a whole view, it has so after. *)
Theorem memo_stays_bounded (w : env) (path_str : string)
  (files : list pack_file) (m : memo) :
  (List.length m <= 256)%nat ->
  NoDup (map fst m) ->
  ((List.length (snd (load_pack w path_str m)) <= 256)%nat
   /\ NoDup (map fst (snd (load_pack w path_str m))))
  /\ ((List.length (snd (view w files m)) <= 256)%nat
      /\ NoDup (map fst (snd (view w files m)))).
Proof.
  intros Hlen Hnd. split; [now apply load_pack_keeps_memo|].
  unfold view. apply view_from_keeps_memo; assumption.
Qed.

(** The statement above for the sample directory and an empty memo table. *)
Lemma memo_stays_bounded_witness :
  (List.length (@nil (string * json)) <= 256)%nat
  /\ NoDup (map fst (@nil (string * json)))
  /\ ((List.length (snd (load_pack Samples.disk "analytics_out/packs/empty.json" []))
       <= 256)%nat
      /\ NoDup (map fst (snd (load_pack Samples.disk "analytics_out/packs/empty.json" []))))
  /\ ((List.length
         (snd (view Samples.disk [Samples.broken_pack; Samples.empty_pack] [])) <= 256)%nat
      /\ NoDup (map fst
                  (snd (view Samples.disk [Samples.broken_pack; Samples.empty_pack] [])))).
Proof.
  assert ((List.length (@nil (string * json)) <= 256)%nat) as H1 by (cbn; lia).
  assert (NoDup (map fst (@nil (string * json)))) as H2 by constructor.
  split; [exact H1|]. split; [exact H2|].
  apply (memo_stays_bounded Samples.disk "analytics_out/packs/empty.json"
           [Samples.broken_pack; Samples.empty_pack] [] H1 H2).
Defined.

End PackMemo.

Section Viewer.
Import Py Packs Chooser.

Lemma columns_bounds (n : nat) : (1 <= columns n <= 3)%nat.
Proof. unfold columns. lia. Qed.

Lemma view_from_columns (w : env) (ncols : nat) (files : list pack_file) :
  (0 < ncols)%nat ->
  forall (i : nat) (m : memo) (evs : list (nat * ui)),
    fst (view_from w ncols i files m) = Returns evs ->
    Forall (fun ev => (fst ev < ncols)%nat) evs.
Proof.
  intros Hpos. induction files as [|f rest IH]; intros i m evs Hv.
  - cbn in Hv. injection Hv as <-. constructor.
  - cbn [view_from] in Hv.
    destruct (load_pack w (path f) m) as [[pack|e] m']; [|discriminate].
    destruct (show_pack w pack) as [shown|e]; [|discriminate].
    specialize (IH (S i) m').
    destruct (view_from w ncols (S i) rest m') as [[later|e] m''];
      cbn [prepend fst] in Hv; [|discriminate].
    injection Hv as <-.
    assert ((i mod ncols < ncols)%nat) as Hcol by (apply Nat.mod_upper_bound; lia).
    apply List.Forall_cons; [exact Hcol|].
    apply Forall_app. split; [|now apply IH].
    apply Forall_forall. intros ev Hev.
    apply list_elem_of_In, List.in_map_iff in Hev as (u & <- & _). exact Hcol.
Qed.

(** X19. The viewer lays the packs out in one to three columns, and every
    pack is drawn in a column that exists: the column index is below the
    number of columns, however many packs are shown. *)
Theorem packs_drawn_in_existing_columns
  (w : env) (files_to_show : list pack_file) (m : memo) :
  (1 <= columns (List.length files_to_show) <= 3)%nat
  /\ match fst (view w files_to_show m) with
     | Returns evs =>
         Forall (fun ev => (fst ev < columns (List.length files_to_show))%nat) evs
     | Raises _ => True
     end.
Proof.
  split; [apply columns_bounds|].
  destruct (fst (view w files_to_show m)) as [evs|e] eqn:Hv; [|exact I].
  eapply view_from_columns; [|exact Hv].
  pose proof (columns_bounds (List.length files_to_show)). lia.
Qed.

(** X20. A pack that decodes to a truthy value which is not an object (a
    non-empty array, a non-empty string, a number other than zero, true)
    ends the whole view: reaching for its bullets raises [AttributeError],
    and the packs after it are not drawn. *)
Theorem non_object_pack_ends_view
  (w : env) (ncols i : nat) (f : pack_file) (rest : list pack_file)
  (m m' : memo) (pack : json) :
  load_pack w (path f) m = (Returns pack, m') ->
  truthy pack = true ->
  is_object pack = false ->
  show_pack w pack = Raises AttributeError
  /\ view_from w ncols i (f :: rest) m = (Raises AttributeError, m').
Proof.
  intros Hload Htruthy Hobj.
  assert (show_pack w pack = Raises AttributeError) as Hshow.
  { unfold show_pack. rewrite Htruthy. cbn [negb].
    destruct pack; try discriminate; reflexivity. }
  split; [exact Hshow|].
  cbn [view_from]. now rewrite Hload, Hshow.
Qed.

(** The statement above for the pack of the sample directory that holds a
    JSON array, viewed before the pack that follows the schema. *)
Lemma non_object_pack_ends_view_witness :
  load_pack Fixtures.shared_disk (path Fixtures.list_pack) []
  = (Returns (JArr [JInt 1]), [(path Fixtures.list_pack, JArr [JInt 1])])
  /\ truthy (JArr [JInt 1]) = true
  /\ is_object (JArr [JInt 1]) = false
  /\ show_pack Fixtures.shared_disk (JArr [JInt 1]) = Raises AttributeError
  /\ view_from Fixtures.shared_disk 2 0
       [Fixtures.list_pack; Fixtures.weekly_pack] []
     = (Raises AttributeError, [(path Fixtures.list_pack, JArr [JInt 1])]).
Proof.
  split; [reflexivity|]. split; [reflexivity|]. split; [reflexivity|].
  apply (non_object_pack_ends_view Fixtures.shared_disk 2 0 Fixtures.list_pack
           [Fixtures.weekly_pack] [] [(path Fixtures.list_pack, JArr [JInt 1])]
           (JArr [JInt 1])); reflexivity.
Defined.

Lemma bullets_stage (b : json) :
  (if truthy (or_else b (JArr [])) then iterate (or_else b (JArr []))
   else Returns [])
  = if truthy b then iterate b else Returns [].
Proof. unfold or_else. destruct (truthy b) eqn:E; [now rewrite E|reflexivity]. Qed.

Lemma tables_stage (t : json) :
  items (or_else t (JObj [])) = if truthy t then items t else Returns [].
Proof. unfold or_else. now destruct (truthy t). Qed.

Lemma iterate_cases (b : json) :
  (iterable b = true /\ exists shown, iterate b = Returns shown)
  \/ (iterable b = false /\ iterate b = Raises TypeError).
Proof. destruct b; cbn; eauto. Qed.

Lemma items_cases (t : json) :
  (is_object t = true /\ exists named, items t = Returns named)
  \/ (is_object t = false /\ items t = Raises AttributeError).
Proof. destruct t; cbn; eauto. Qed.

(** X21. For a non-empty object pack: bullets that are a number or [true]
    raise [TypeError]; with bullets that are missing, falsy or something to
    iterate over, tables that are truthy and not an object raise
    [AttributeError]; with such bullets and tables missing or falsy the
    pack is drawn, its bullets first and then its KPIs if there are any;
    and a pack with none of the three keys draws nothing. *)
Theorem object_pack_shown (w : env) (fields : list (string * json)) :
  fields <> [] ->
  (truthy (fields_get "bullets" fields) = true ->
   iterable (fields_get "bullets" fields) = false ->
   show_pack w (JObj fields) = Raises TypeError)
  /\ ((truthy (fields_get "bullets" fields) = false
       \/ iterable (fields_get "bullets" fields) = true) ->
      truthy (fields_get "tables" fields) = true ->
      is_object (fields_get "tables" fields) = false ->
      show_pack w (JObj fields) = Raises AttributeError)
  /\ ((truthy (fields_get "bullets" fields) = false
       \/ iterable (fields_get "bullets" fields) = true) ->
      truthy (fields_get "tables" fields) = false ->
      exists shown,
        (if truthy (fields_get "bullets" fields)
         then iterate (fields_get "bullets" fields) else Returns [])
        = Returns shown
        /\ show_pack w (JObj fields)
           = Returns (map Write shown
                      ++ (if truthy (fields_get "kpis" fields)
                          then [Json (fields_get "kpis" fields)] else [])))
  /\ (fields_get "bullets" fields = JNull ->
      fields_get "kpis" fields = JNull ->
      fields_get "tables" fields = JNull ->
      show_pack w (JObj fields) = Returns []).
Proof.
  intros Hne.
  assert (truthy (JObj fields) = true) as Ht
      by (destruct fields; [contradiction|reflexivity]).
  unfold show_pack. rewrite Ht.
  cbn [negb get mbind outcome_bind bind].
  rewrite bullets_stage, tables_stage.
  assert (truthy (or_else (fields_get "kpis" fields) (JObj []))
          = truthy (fields_get "kpis" fields)) as Hk
      by (unfold or_else; destruct (truthy (fields_get "kpis" fields)) eqn:E;
          [exact E|reflexivity]).
  assert (forall x, truthy x = true -> or_else x (JObj []) = x) as Hor
      by (intros x Hx; unfold or_else; now rewrite Hx).
  destruct (iterate_cases (fields_get "bullets" fields)) as [[Ib [shown Hb]]|[Ib Hb]];
    destruct (items_cases (fields_get "tables" fields)) as [[Ot [named Hn]]|[Ot Hn]];
    rewrite Ib, Ot, ?Hb, ?Hn;
    destruct (truthy (fields_get "bullets" fields)) eqn:Tb;
    destruct (truthy (fields_get "tables" fields)) eqn:Tt;
    cbn [bind mret outcome_ret draw_tables];
    (split; [intros; first [discriminate | reflexivity]|]);
    (split; [intros [?|?] ? ?; first [discriminate | reflexivity]|]);
    (split;
     [intros [?|?] ?; try discriminate;
      eexists; (split; [reflexivity|]); rewrite Hk, ?app_nil_r;
      destruct (truthy (fields_get "kpis" fields)) eqn:Tk;
      rewrite ?(Hor _ Tk); reflexivity|]);
    intros E1 E2 E3; rewrite ?E1, ?E2, ?E3 in *;
    first [discriminate | reflexivity].
Qed.

(** The statement above for a pack with a bullet and a KPI and no tables. *)
Lemma object_pack_shown_witness :
  [("bullets", JArr [JStr "Prices rose"]); ("kpis", JObj [("items", JInt 3)])] <> []
  /\ exists shown,
      Returns [JStr "Prices rose"] = Returns shown
      /\ show_pack Fixtures.shared_disk
           (JObj [("bullets", JArr [JStr "Prices rose"]);
                  ("kpis", JObj [("items", JInt 3)])])
         = Returns (map Write shown ++ [Json (JObj [("items", JInt 3)])]).
Proof.
  assert ([("bullets", JArr [JStr "Prices rose"]);
           ("kpis", JObj [("items", JInt 3)])] <> @nil (string * json))
    as H by discriminate.
  split; [exact H|].
  destruct (object_pack_shown Fixtures.shared_disk _ H) as (_ & _ & H3 & _).
  apply H3; [right; reflexivity|reflexivity].
Defined.

End Viewer.

Section ChoosingPacks.
Import Py Packs Chooser.

Lemma index_found (lbl : string) (pack_files : list pack_file) :
  match index lbl (labels pack_files) with
  | inr i => exists f, pack_files !! i = Some f /\ stem f = lbl
  | inl e => e = NotInList /\ ~ lbl ∈ labels pack_files
  end.
Proof.
  induction pack_files as [|f fs IH]; cbn [labels map index].
  - split; [reflexivity|apply not_elem_of_nil].
  - destruct (String.eqb_spec (stem f) lbl) as [Heq|Hne].
    + exists f. split; [reflexivity|exact Heq].
    + fold (labels fs). destruct (index lbl (labels fs)) as [e|i].
      * destruct IH as [-> Hout]. split; [reflexivity|].
        intros [?|?]%elem_of_cons; [congruence|contradiction].
      * destruct IH as (g & Hg & Hs). exists g. split; [exact Hg|exact Hs].
Qed.

(** X22. Choosing packs by label gives, for every chosen label, the first
    pack file with that stem: when every chosen label is a label of the
    directory, the files to show carry exactly the chosen labels in the
    chosen order and are files of the directory; otherwise the choice
    raises [ValueError].  The subscript never runs out of range. *)
Theorem files_to_show_by_label
  (pack_files : list pack_file) (chosen : list string) :
  match files_to_show pack_files chosen with
  | inr files =>
      map stem files = chosen
      /\ Forall (fun f => f ∈ pack_files) files
      /\ Forall (fun lbl => lbl ∈ labels pack_files) chosen
  | inl e =>
      e = NotInList
      /\ ~ Forall (fun lbl => lbl ∈ labels pack_files) chosen
  end.
Proof.
  induction chosen as [|lbl rest IH]; cbn [files_to_show].
  - repeat split; constructor.
  - pose proof (index_found lbl pack_files) as Hi.
    destruct (index lbl (labels pack_files)) as [e|i].
    + destruct Hi as [-> Hout]. split; [reflexivity|].
      intros H. apply Forall_cons_1 in H as [H _]. contradiction.
    + destruct Hi as (f & Hf & Hs). unfold subscript. rewrite Hf.
      assert (lbl ∈ labels pack_files) as Hin.
      { unfold labels. subst lbl. apply list_elem_of_In, List.in_map.
        eapply list_elem_of_In, list_elem_of_lookup_2, Hf. }
      destruct (files_to_show pack_files rest) as [e|files].
      * destruct IH as [-> Hout]. split; [reflexivity|].
        intros H. apply Forall_cons_1 in H as [_ H]. contradiction.
      * destruct IH as (Hm & Hfs & Hch). cbn [map].
        split; [now rewrite Hs, Hm|]. split.
        -- apply List.Forall_cons; [|exact Hfs].
           eapply list_elem_of_lookup_2, Hf.
        -- apply List.Forall_cons; [exact Hin|exact Hch].
Qed.

End ChoosingPacks.

Section UnreadablePacks.
Import Py Packs.

Lemma view_from_all_warnings (w : env) (ncols : nat) (files : list pack_file) :
  Forall (fun f => unreadable w (path f) = true) files ->
  forall (i : nat) (m : memo),
    Forall (fun kv => truthy (snd kv) = false) m ->
    exists evs m',
      view_from w ncols i files m = (Returns evs, m')
      /\ map snd evs
         = flat_map (fun f => [ Markdown ("**" +:+ stem f +:+ "**");
                                Warning "Could not read this pack." ]) files
      /\ Forall (fun kv => truthy (snd kv) = false) m'.
Proof.
  induction 1 as [|f rest Hf _ IH]; intros i m Hm.
  - exists [], m. repeat split; [exact Hm].
  - assert (exists pack m1,
               load_pack w (path f) m = (Returns pack, m1)
               /\ truthy pack = false
               /\ Forall (fun kv => truthy (snd kv) = false) m1)
      as (pack & m1 & Hload & Hfalsy & Hm1).
    { unfold load_pack. destruct (memo_get (path f) m) as [v|] eqn:Hget.
      - assert (truthy v = false) as Hv.
        { clear -Hget Hm. induction Hm as [|[k x] m Hx _ IH]; [discriminate|].
          cbn [memo_get] in Hget. destruct (String.eqb k (path f)).
          - injection Hget as <-. exact Hx.
          - now apply IH. }
        exists v, ((path f, v) :: memo_drop (path f) m).
        split; [reflexivity|]. split; [exact Hv|].
        apply List.Forall_cons; [exact Hv|].
        unfold memo_drop. apply Forall_forall. intros kv Hkv.
        apply list_elem_of_In, List.filter_In in Hkv as [Hkv _].
        rewrite Forall_forall in Hm. apply Hm. now apply list_elem_of_In.
      - rewrite (unreadable_body w (path f) Hf).
        exists empty_struct, (take maxsize ((path f, empty_struct) :: m)).
        split; [reflexivity|]. split; [reflexivity|].
        apply Forall_forall. intros kv Hkv.
        apply subseteq_take in Hkv.
        apply elem_of_cons in Hkv as [->|Hkv]; [reflexivity|].
        rewrite Forall_forall in Hm. now apply Hm. }
    destruct (IH (S i) m1 Hm1) as (evs & m' & Hrest & Hevs & Hm').
    exists ([ (i mod ncols, Markdown ("**" +:+ stem f +:+ "**"));
              (i mod ncols, Warning "Could not read this pack.") ] ++ evs), m'.
    rewrite (view_from_falsy w ncols i f rest m m1 pack Hload Hfalsy), Hrest.
    split; [reflexivity|]. split; [|exact Hm'].
    cbn [map app snd flat_map]. now rewrite Hevs.
Qed.

(** X23. Packs that cannot be read never end the view: when every file to
    show is unreadable (and the memo table holds nothing truthy), the view
    is drawn to the end, and shows for each file, in order, its heading
    followed by the warning. *)
Theorem unreadable_packs_only_warn
  (w : env) (files_to_show : list pack_file) (m : memo) :
  Forall (fun f => unreadable w (path f) = true) files_to_show ->
  Forall (fun kv => truthy (snd kv) = false) m ->
  exists evs m',
    view w files_to_show m = (Returns evs, m')
    /\ map snd evs
       = flat_map (fun f => [ Markdown ("**" +:+ stem f +:+ "**");
                              Warning "Could not read this pack." ])
           files_to_show.
Proof.
  intros Hfiles Hm. unfold view.
  destruct (view_from_all_warnings w (columns (List.length files_to_show))
              files_to_show Hfiles 0%nat m Hm) as (evs & m' & Hv & Hevs & _).
  eauto.
Qed.

(** The statement above for a directory in which nothing can be read and
    four packs chosen. *)
Lemma unreadable_packs_only_warn_witness :
  Forall (fun f => unreadable Fixtures.dead_disk (path f) = true)
    [Fixtures.weekly_pack; Fixtures.list_pack; Fixtures.weekly_pack;
     Fixtures.list_pack]
  /\ Forall (fun kv : string * json => truthy (snd kv) = false) []
  /\ exists evs m',
      view Fixtures.dead_disk
        [Fixtures.weekly_pack; Fixtures.list_pack; Fixtures.weekly_pack;
         Fixtures.list_pack] []
      = (Returns evs, m')
      /\ map snd evs
         = flat_map (fun f => [ Markdown ("**" +:+ stem f +:+ "**");
                                Warning "Could not read this pack." ])
             [Fixtures.weekly_pack; Fixtures.list_pack; Fixtures.weekly_pack;
              Fixtures.list_pack].
Proof.
  assert (Forall (fun f => unreadable Fixtures.dead_disk (path f) = true)
            [Fixtures.weekly_pack; Fixtures.list_pack; Fixtures.weekly_pack;
             Fixtures.list_pack]) as H1
      by (repeat (apply List.Forall_cons; [reflexivity|]); apply List.Forall_nil).
  assert (Forall (fun kv : string * json => truthy (snd kv) = false) []) as H2
      by apply List.Forall_nil.
  split; [exact H1|]. split; [exact H2|].
  apply (unreadable_packs_only_warn Fixtures.dead_disk _ [] H1 H2).
Defined.

End UnreadablePacks.

Section CacheSound.
Import Py Text QueryCache.

(** Every cached frame is the answer the gateway gave at a call that is in
    its log, under the text the frame is stored for. *)
Lemma q_keeps_answers (gw : gateway) (t : Z) (sql : string) (st : state) :
  (forall s e, cache st !! s = Some e ->
               exists n, gateway_calls st !! n = Some s
                         /\ q_body (gw s n) = Returns (value_of e)) ->
  forall s e, cache (snd (q gw t sql st)) !! s = Some e ->
              exists n, gateway_calls (snd (q gw t sql st)) !! n = Some s
                        /\ q_body (gw s n) = Returns (value_of e).
Proof.
  intros Hinv s e. unfold q.
  destruct (cached t sql st) as [df|]; cbn [snd]; [apply Hinv|].
  assert (forall s e, cache st !! s = Some e ->
                      exists n, (gateway_calls st ++ [sql]) !! n = Some s
                                /\ q_body (gw s n) = Returns (value_of e)) as Hold.
  { intros s' e' H. destruct (Hinv s' e' H) as (n & Hn & Hb).
    exists n. split; [|exact Hb].
    rewrite lookup_app_l; [exact Hn|]. eapply lookup_lt_Some, Hn. }
  destruct (q_body (gw sql (List.length (gateway_calls st)))) as [df|ex] eqn:Hb;
    cbn [snd cache gateway_calls]; [|apply Hold].
  destruct (decide (sql = s)) as [->|Hne].
  - rewrite lookup_insert_eq. intros [= <-]. cbn [value_of].
    exists (List.length (gateway_calls st)). split; [|exact Hb].
    rewrite lookup_app_r by lia. now rewrite Nat.sub_diag.
  - rewrite lookup_insert_ne by exact Hne. apply Hold.
Qed.

Lemma run_keeps_answers (gw : gateway) (calls : list (Z * string)) :
  forall st,
    (forall s e, cache st !! s = Some e ->
                 exists n, gateway_calls st !! n = Some s
                           /\ q_body (gw s n) = Returns (value_of e)) ->
    forall s e, cache (run gw calls st) !! s = Some e ->
                exists n, gateway_calls (run gw calls st) !! n = Some s
                          /\ q_body (gw s n) = Returns (value_of e).
Proof.
  induction calls as [|c calls IH]; intros st Hinv; [exact Hinv|].
  cbn [run fold_left]. apply IH. now apply q_keeps_answers.
Qed.

(** X24. The cache never makes up or mixes up results: after any run of
    calls from the empty cache, a frame returned by [q] for a text is the
    answer the gateway gave at one of the calls in its log, and that call
    was for this very text. *)
Theorem q_returns_gateway_answers
  (gw : gateway) (calls : list (Z * string)) (t : Z) (sql : string)
  (df : DataFrame) :
  fst (q gw t sql (run gw calls empty_state)) = Returns df ->
  exists n,
    gateway_calls (snd (q gw t sql (run gw calls empty_state))) !! n = Some sql
    /\ q_body (gw sql n) = Returns df.
Proof.
  assert (forall s e, cache (run gw calls empty_state) !! s = Some e ->
                      exists n, gateway_calls (run gw calls empty_state) !! n = Some s
                                /\ q_body (gw s n) = Returns (value_of e)) as Hinv.
  { apply run_keeps_answers. intros s e H. cbn in H.
    rewrite lookup_empty in H. discriminate. }
  set (st := run gw calls empty_state) in *.
  assert (forall df', q_body (gw sql (List.length (gateway_calls st))) = Returns df' ->
                      exists n, (gateway_calls st ++ [sql]) !! n = Some sql
                                /\ q_body (gw sql n) = Returns df') as Hnew.
  { intros df' Hb. exists (List.length (gateway_calls st)). split; [|exact Hb].
    rewrite lookup_app_r by lia. now rewrite Nat.sub_diag. }
  unfold q, cached.
  destruct (cache st !! sql) as [e|] eqn:He.
  - destruct (fresh t e); cbn [fst snd].
    + intros [= <-]. eapply Hinv, He.
    + destruct (q_body _) eqn:Hb; cbn [fst snd gateway_calls];
        [intros [= <-]; now apply Hnew|discriminate].
  - destruct (q_body _) eqn:Hb; cbn [fst snd gateway_calls];
      [intros [= <-]; now apply Hnew|discriminate].
Qed.

(** The statement above for a second call that is served from the cache:
    the frame is the gateway's answer at its second call. *)
Lemma q_returns_gateway_answers_witness :
  fst (q Samples.counting_gateway 5 "SELECT 1"
         (run Samples.counting_gateway [(0%Z, "SELECT 2"); (1%Z, "SELECT 1")]
            empty_state))
  = Returns [[("n", VInt 1)]]
  /\ exists n,
      gateway_calls
        (snd (q Samples.counting_gateway 5 "SELECT 1"
                (run Samples.counting_gateway
                   [(0%Z, "SELECT 2"); (1%Z, "SELECT 1")] empty_state))) !! n
      = Some "SELECT 1"
      /\ q_body (Samples.counting_gateway "SELECT 1" n)
         = Returns [[("n", VInt 1)]].
Proof.
  assert (fst (q Samples.counting_gateway 5 "SELECT 1"
                 (run Samples.counting_gateway
                    [(0%Z, "SELECT 2"); (1%Z, "SELECT 1")] empty_state))
          = Returns [[("n", VInt 1)]]) as H by (vm_compute; reflexivity).
  split; [exact H|].
  apply (q_returns_gateway_answers Samples.counting_gateway
           [(0%Z, "SELECT 2"); (1%Z, "SELECT 1")] 5 "SELECT 1" _ H).
Defined.

End CacheSound.
